(** * AWS starter demo: device-shadow synchronisation

    A shallow embedding of [sample_apps/aws_starter_demo/src/main.c]: the
    push-button callbacks, the shadow-delta callback, the publisher
    [aws_publish_property_state], the body of the application thread
    [aws_starter_demo] and the WLAN event handlers, followed by the
    properties of the synchronisation logic.

    The C globals live in one record [world]; every C function is a
    computation in a small state-and-output monad [M] whose output is the
    list of calls made to the SDK (the collaborators of the program).  The
    return codes of SDK calls are inputs of the model.

    The system is a transition system: a step is a push-button callback, a
    WLAN event handler, the set-up of the application thread or one
    iteration of its loop, each taken as a whole.  Deltas and
    acknowledgements are delivered inside [aws_iot_shadow_yield], where the
    SDK runs the callbacks. *)

From Stdlib Require Import ZArith String Ascii List Bool Lia.
Import ListNotations.

Local Open Scope string_scope.
Local Open Scope Z_scope.

(** ** Integers and SDK constants *)

(** [uint32_t] arithmetic: values are kept in [0, 2^32). *)
Definition uint32_wrap (z : Z) : Z := z mod 2 ^ 32.

Definition is_uint32 (z : Z) : Prop := 0 <= z < 2 ^ 32.

(** Modelled from the spec: the SDK header [wmerrno.h], which defines
    [WM_SUCCESS] and [WM_FAIL], is not among the sources.  The code only
    tests return codes against [WM_SUCCESS], and the specification only
    tells success from failure; the SDK's values are 0 and 1. *)
Definition WM_SUCCESS : Z := 0.
Definition WM_FAIL : Z := 1.

Definition BUFSIZE : Z := 128.

(** [enum state].  The enumerators start at 1, so the zero-initialised
    [device_state] holds none of them. *)
Inductive state : Type :=
| AWS_CONNECTED
| AWS_RECONNECTED
| AWS_DISCONNECTED.

Definition state_value (s : state) : Z :=
  match s with
  | AWS_CONNECTED => 1
  | AWS_RECONNECTED => 2
  | AWS_DISCONNECTED => 3
  end.

Coercion state_value : state >-> Z.

(** [Shadow_Ack_Status_t] of the shadow interface: the three statuses
    [shadow_update_status_cb] tells apart. *)
Inductive Shadow_Ack_Status_t : Type :=
| SHADOW_ACK_TIMEOUT
| SHADOW_ACK_REJECTED
| SHADOW_ACK_ACCEPTED.

(** ** Strings: the double quote, [%lu], [snprintf], [strcat] *)

Definition dq : string := String "034"%char EmptyString.

Definition VAR_LED_1_PROPERTY : string := "led".
Definition VAR_BUTTON_A_PROPERTY : string := "pb".
Definition VAR_BUTTON_B_PROPERTY : string := "pb_lambda".

Definition digit_char (d : Z) : ascii := ascii_of_nat (48 + Z.to_nat d).
Definition digit_val (c : ascii) : Z := Z.of_nat (nat_of_ascii c) - 48.

(** Decimal digits of [n], most significant first, put in front of [acc]. *)
Fixpoint fmt_digits (fuel : nat) (n : Z) (acc : string) : string :=
  match fuel with
  | O => acc
  | S f =>
      let acc' := String (digit_char (n mod 10)) acc in
      if n <? 10 then acc' else fmt_digits f (n / 10) acc'
  end.

(** The [%lu] conversion. *)
Definition fmt_lu (n : Z) : string :=
  fmt_digits (S (Z.to_nat (Z.log2 n))) n "".

(** A character ['0'] .. ['9'], and a text made of such characters. *)
Definition is_digit (c : ascii) : bool :=
  (48 <=? nat_of_ascii c)%nat && (nat_of_ascii c <=? 57)%nat.

Fixpoint all_digits (s : string) : bool :=
  match s with
  | EmptyString => true
  | String c r => is_digit c && all_digits r
  end.

(** Reading a decimal numeral back ([acc] is the value read so far). *)
Fixpoint read_decimal (s : string) (acc : Z) : Z :=
  match s with
  | EmptyString => acc
  | String c r => read_decimal r (10 * acc + digit_val c)
  end.

(** [snprintf(buf, size, ...)] keeps at most [size - 1] characters of the
    formatted text. *)
Definition snprintf (size : Z) (formatted : string) : string :=
  substring 0 (Z.to_nat (size - 1)) formatted.

(** [strcat(dst, src)] on NUL-terminated strings; where the program uses
    it the destination is large enough (lemma [state_buffer_fits]). *)
Definition strcat (dst src : string) : string := dst ++ src.

Definition strlen (s : string) : Z := Z.of_nat (String.length s).

(** The format [",\"%s\":%lu"]. *)
Definition fmt_property (name : string) (v : Z) : string :=
  "," ++ dq ++ name ++ dq ++ ":" ++ fmt_lu v.

(** The format ["{\"state\": {\"reported\":{%s}}}"]. *)
Definition fmt_reported (s : string) : string :=
  "{" ++ dq ++ "state" ++ dq ++ ": {" ++ dq ++ "reported" ++ dq ++ ":{"
      ++ s ++ "}}}".

(** ** The program state *)

Inductive led_id : Type := led_1 | board_led_2.

(** Where the application thread is: not created, created and about to run
    its set-up code, inside [while (1)], or finished
    ([os_thread_self_complete]). *)
Inductive thread_status : Type :=
| thread_none
| thread_created
| thread_in_loop
| thread_completed.

Record world : Type := mk_world {
  pushbutton_a_count : Z;
  pushbutton_a_count_prev : Z;
  pushbutton_b_count : Z;
  pushbutton_b_count_prev : Z;
  led_1_state : Z;
  led_1_state_prev : Z;
  device_state : Z;
  (** the level driven on the GPIO of [led_1] (the actuator) *)
  led_1_lit : bool;
  (** the application thread *)
  aws_starter_thread : thread_status;
  (** how many times [os_thread_create] has succeeded *)
  threads_created : nat
}.

(** The globals as the C initialisers leave them. *)
Definition initial_world : world :=
  {| pushbutton_a_count := 0;
     pushbutton_a_count_prev := uint32_wrap (-1);
     pushbutton_b_count := 0;
     pushbutton_b_count_prev := uint32_wrap (-1);
     led_1_state := 0;
     led_1_state_prev := uint32_wrap (-1);
     device_state := 0;
     led_1_lit := false;
     aws_starter_thread := thread_none;
     threads_created := 0 |}.

Definition set_pushbutton_a_count (v : Z) (w : world) : world :=
  mk_world v (pushbutton_a_count_prev w) (pushbutton_b_count w)
    (pushbutton_b_count_prev w) (led_1_state w) (led_1_state_prev w)
    (device_state w) (led_1_lit w) (aws_starter_thread w) (threads_created w).

Definition set_pushbutton_a_count_prev (v : Z) (w : world) : world :=
  mk_world (pushbutton_a_count w) v (pushbutton_b_count w)
    (pushbutton_b_count_prev w) (led_1_state w) (led_1_state_prev w)
    (device_state w) (led_1_lit w) (aws_starter_thread w) (threads_created w).

Definition set_pushbutton_b_count (v : Z) (w : world) : world :=
  mk_world (pushbutton_a_count w) (pushbutton_a_count_prev w) v
    (pushbutton_b_count_prev w) (led_1_state w) (led_1_state_prev w)
    (device_state w) (led_1_lit w) (aws_starter_thread w) (threads_created w).

Definition set_pushbutton_b_count_prev (v : Z) (w : world) : world :=
  mk_world (pushbutton_a_count w) (pushbutton_a_count_prev w)
    (pushbutton_b_count w) v (led_1_state w) (led_1_state_prev w)
    (device_state w) (led_1_lit w) (aws_starter_thread w) (threads_created w).

Definition set_led_1_state (v : Z) (w : world) : world :=
  mk_world (pushbutton_a_count w) (pushbutton_a_count_prev w)
    (pushbutton_b_count w) (pushbutton_b_count_prev w) v (led_1_state_prev w)
    (device_state w) (led_1_lit w) (aws_starter_thread w) (threads_created w).

Definition set_led_1_state_prev (v : Z) (w : world) : world :=
  mk_world (pushbutton_a_count w) (pushbutton_a_count_prev w)
    (pushbutton_b_count w) (pushbutton_b_count_prev w) (led_1_state w) v
    (device_state w) (led_1_lit w) (aws_starter_thread w) (threads_created w).

Definition set_device_state (v : Z) (w : world) : world :=
  mk_world (pushbutton_a_count w) (pushbutton_a_count_prev w)
    (pushbutton_b_count w) (pushbutton_b_count_prev w) (led_1_state w)
    (led_1_state_prev w) v (led_1_lit w) (aws_starter_thread w)
    (threads_created w).

Definition set_led_1_lit (v : bool) (w : world) : world :=
  mk_world (pushbutton_a_count w) (pushbutton_a_count_prev w)
    (pushbutton_b_count w) (pushbutton_b_count_prev w) (led_1_state w)
    (led_1_state_prev w) (device_state w) v (aws_starter_thread w)
    (threads_created w).

Definition set_aws_starter_thread (v : thread_status) (w : world) : world :=
  mk_world (pushbutton_a_count w) (pushbutton_a_count_prev w)
    (pushbutton_b_count w) (pushbutton_b_count_prev w) (led_1_state w)
    (led_1_state_prev w) (device_state w) (led_1_lit w) v (threads_created w).

Definition set_threads_created (v : nat) (w : world) : world :=
  mk_world (pushbutton_a_count w) (pushbutton_a_count_prev w)
    (pushbutton_b_count w) (pushbutton_b_count_prev w) (led_1_state w)
    (led_1_state_prev w) (device_state w) (led_1_lit w)
    (aws_starter_thread w) v.

(** Every counter holds a [uint32_t] value. *)
Definition counters_in_range (w : world) : Prop :=
  is_uint32 (pushbutton_a_count w) /\ is_uint32 (pushbutton_b_count w)
  /\ is_uint32 (led_1_state w).

(** ** Calls to the SDK, and the monad *)

Inductive call : Type :=
| c_led_on (l : led_id)
| c_led_off (l : led_id)
| c_aws_iot_mqtt_init
| c_aws_iot_shadow_init
| c_aws_iot_shadow_connect
| c_aws_iot_shadow_register_delta
| c_aws_iot_shadow_yield
| c_aws_iot_shadow_update (pJsonString : string)
| c_aws_iot_shadow_disconnect
| c_os_thread_create
| c_os_thread_sleep (ms : Z)
| c_os_thread_self_complete
| c_wmtime_time_set_posix (t : Z)
| c_read_config (what : string)
| c_wmprintf (fmt : string).

Record result (A : Type) : Type := mk_result {
  val : A;
  st : world;
  out : list call
}.

Arguments mk_result {A} _ _ _.
Arguments val {A} _.
Arguments st {A} _.
Arguments out {A} _.

Definition M (A : Type) : Type := world -> result A.

Definition ret {A : Type} (a : A) : M A :=
  fun w => mk_result a w [].

Definition bind {A B : Type} (m : M A) (k : A -> M B) : M B :=
  fun w =>
    match m w with
    | mk_result a w1 o1 =>
        match k a w1 with
        | mk_result b w2 o2 => mk_result b w2 (o1 ++ o2)%list
        end
    end.

Notation "x <- m ;; k" := (bind m (fun x => k))
  (at level 61, m at next level, right associativity).
Notation "m ;; k" := (bind m (fun _ => k))
  (at level 61, right associativity).

Definition gets {A : Type} (f : world -> A) : M A :=
  fun w => mk_result (f w) w [].

Definition modify (f : world -> world) : M unit :=
  fun w => mk_result tt (f w) [].

(** An SDK call: it is recorded, and its return code is the one the
    environment supplies. *)
Definition extern (c : call) (code : Z) : M Z :=
  fun w => mk_result code w [c].

(** [wmprintf]: the format string is recorded without its arguments and
    without the trailing CR LF. *)
Definition wmprintf (fmt : string) : M unit :=
  fun w => mk_result tt w [c_wmprintf fmt].

Definition led_on (l : led_id) : M unit :=
  fun w =>
    mk_result tt (match l with led_1 => set_led_1_lit true w | _ => w end)
      [c_led_on l].

Definition led_off (l : led_id) : M unit :=
  fun w =>
    mk_result tt (match l with led_1 => set_led_1_lit false w | _ => w end)
      [c_led_off l].

(** ** The callbacks *)

(** [pushbutton_a_cb]: callback invoked when pushbutton_a is pressed. *)
Definition pushbutton_a_cb : M unit :=
  prev <- gets pushbutton_a_count_prev ;;
  count <- gets pushbutton_a_count ;;
  if prev =? count
  then modify (set_pushbutton_a_count (uint32_wrap (count + 1)))
  else ret tt.

(** [pushbutton_b_cb]: callback invoked when pushbutton_b is pressed. *)
Definition pushbutton_b_cb : M unit :=
  prev <- gets pushbutton_b_count_prev ;;
  count <- gets pushbutton_b_count ;;
  if prev =? count
  then modify (set_pushbutton_b_count (uint32_wrap (count + 1)))
  else ret tt.

(** [shadow_update_status_cb]: the acknowledgement of a shadow update. *)
Definition shadow_update_status_cb (status : Shadow_Ack_Status_t) : M unit :=
  match status with
  | SHADOW_ACK_TIMEOUT =>
      wmprintf "Shadow publish state change timeout occurred"
  | SHADOW_ACK_REJECTED =>
      wmprintf "Shadow publish state change rejected"
  | SHADOW_ACK_ACCEPTED =>
      wmprintf "Shadow publish state change accepted"
  end.

(** [led_indicator_cb]: invoked when a led state change request is
    received.  [p_context] is [None] for a NULL pointer and [Some v] when
    [*(int * )(p_context->pData)] is [v]. *)
Definition led_indicator_cb (p_context : option Z) : M unit :=
  match p_context with
  | Some state =>
      if negb (state =? 0)
      then led_on led_1 ;; modify (set_led_1_state 1)
      else led_off led_1 ;; modify (set_led_1_state 0)
  | None => ret tt
  end.

(** ** Publishing the thing state *)

(** [aws_publish_property_state]; [update_code] is what
    [aws_iot_shadow_update] returns if it is called. *)
Definition aws_publish_property_state (update_code : Z) : M Z :=
  let state := "" in
  a_prev <- gets pushbutton_a_count_prev ;;
  a <- gets pushbutton_a_count ;;
  state <- (if negb (a_prev =? a)
            then
              let buf_out :=
                snprintf BUFSIZE (fmt_property VAR_BUTTON_A_PROPERTY a) in
              modify (set_pushbutton_a_count_prev a) ;;
              ret (strcat state buf_out)
            else ret state) ;;
  b_prev <- gets pushbutton_b_count_prev ;;
  b <- gets pushbutton_b_count ;;
  state <- (if negb (b_prev =? b)
            then
              let buf_out :=
                snprintf BUFSIZE (fmt_property VAR_BUTTON_B_PROPERTY b) in
              modify (set_pushbutton_b_count_prev b) ;;
              ret (strcat state buf_out)
            else ret state) ;;
  l_prev <- gets led_1_state_prev ;;
  l <- gets led_1_state ;;
  state <- (if negb (l_prev =? l)
            then
              let buf_out :=
                snprintf BUFSIZE (fmt_property VAR_LED_1_PROPERTY l) in
              modify (set_led_1_state_prev l) ;;
              ret (strcat state buf_out)
            else ret state) ;;
  let ptr :=
    match state with
    | String ","%char rest => rest
    | _ => state
    end in
  if negb (strlen state =? 0)
  then
    let buf_out := snprintf BUFSIZE (fmt_reported ptr) in
    wmprintf "Publishing '%s' to AWS" ;;
    extern (c_aws_iot_shadow_update buf_out) update_code
  else ret WM_SUCCESS.

(** ** The application thread *)

(** What the environment answers while the thread sets itself up. *)
Record setup_env : Type := mk_setup_env {
  thing_code : Z;
  mac_code : Z;
  region_code : Z;
  certificate_code : Z;
  key_code : Z;
  init_code : Z;
  connect_code : Z;
  register_code : Z
}.

(** A message handled inside [aws_iot_shadow_yield]: a delta for the
    registered key, or the acknowledgement of an earlier update. *)
Inductive inbound_msg : Type :=
| in_delta (p_context : option Z)
| in_ack (status : Shadow_Ack_Status_t).

(** What the environment answers during one iteration of the loop. *)
Record tick_env : Type := mk_tick_env {
  reinit_code : Z;
  reconnect_code : Z;
  reregister_code : Z;
  inbound : list inbound_msg;
  update_code : Z
}.

(** [aws_starter_load_configuration]: the reads and the early returns (the
    fields of [ShadowParameters_t] it fills are not observed here). *)
Definition aws_starter_load_configuration (e : setup_env) : M Z :=
  r <- extern (c_read_config "thing") (thing_code e) ;;
  if negb (r =? WM_SUCCESS)
  then wmprintf "Failed to configure thing. Returning!" ;; ret (- WM_FAIL)
  else
    r <- extern (c_read_config "device_mac") (mac_code e) ;;
    if negb (r =? WM_SUCCESS)
    then wmprintf "Failed to read device mac address. Returning!" ;;
         ret (- WM_FAIL)
    else
      _ <- extern (c_read_config "region") (region_code e) ;;
      r <- extern (c_read_config "certificate") (certificate_code e) ;;
      if negb (r =? WM_SUCCESS)
      then wmprintf "Failed to configure certificate. Returning!" ;;
           ret (- WM_FAIL)
      else
        r <- extern (c_read_config "key") (key_code e) ;;
        if negb (r =? WM_SUCCESS)
        then wmprintf "Failed to configure key. Returning!" ;;
             ret (- WM_FAIL)
        else ret r.

Definition dispatch (m : inbound_msg) : M unit :=
  match m with
  | in_delta p_context => led_indicator_cb p_context
  | in_ack status => shadow_update_status_cb status
  end.

(** [aws_iot_shadow_yield]: the client runs the callbacks of the messages
    that have arrived. *)
Fixpoint deliver (msgs : list inbound_msg) : M unit :=
  match msgs with
  | [] => ret tt
  | m :: rest => dispatch m ;; deliver rest
  end.

Definition aws_iot_shadow_yield (msgs : list inbound_msg) : M unit :=
  extern c_aws_iot_shadow_yield 0 ;; deliver msgs.

(** [aws_starter_demo] up to [while (1)]: [true] when the loop is entered,
    [false] on [goto out]. *)
Definition aws_starter_demo_setup (e : setup_env) : M bool :=
  extern c_aws_iot_mqtt_init 0 ;;
  r <- aws_starter_load_configuration e ;;
  if negb (r =? WM_SUCCESS)
  then wmprintf "aws shadow configuration failed : %d" ;; ret false
  else
    r <- extern c_aws_iot_shadow_init (init_code e) ;;
    if negb (r =? WM_SUCCESS)
    then wmprintf "aws shadow init failed : %d" ;; ret false
    else
      r <- extern c_aws_iot_shadow_connect (connect_code e) ;;
      if negb (r =? WM_SUCCESS)
      then wmprintf "aws shadow connect failed : %d" ;; ret false
      else
        led_on board_led_2 ;;
        wmprintf "Cloud Started" ;;
        r <- extern c_aws_iot_shadow_register_delta (register_code e) ;;
        if negb (r =? WM_SUCCESS)
        then wmprintf "Failed to subscribe to shadow delta %d" ;; ret false
        else ret true.

(** The first statement of the loop body: the reconnection, [true] unless
    it ends in [goto out]. *)
Definition aws_starter_demo_reconnect (e : tick_env) : M bool :=
  ds <- gets device_state ;;
  if ds =? AWS_RECONNECTED
  then
    r <- extern c_aws_iot_shadow_init (reinit_code e) ;;
    if negb (r =? WM_SUCCESS)
    then wmprintf "aws shadow init failed: %d" ;; ret false
    else
      r <- extern c_aws_iot_shadow_connect (reconnect_code e) ;;
      if negb (r =? WM_SUCCESS)
      then wmprintf "aws shadow reconnect failed: %d" ;; ret false
      else
        modify (set_device_state AWS_CONNECTED) ;;
        led_on board_led_2 ;;
        _ <- extern c_aws_iot_shadow_register_delta (reregister_code e) ;;
        wmprintf "Reconnected to cloud" ;;
        ret true
  else ret true.

(** One iteration of [while (1)] in [aws_starter_demo]: [true] when the
    loop goes on, [false] on [goto out]. *)
Definition aws_starter_demo_iteration (e : tick_env) : M bool :=
  go_on <- aws_starter_demo_reconnect e ;;
  if go_on
  then
    aws_iot_shadow_yield (inbound e) ;;
    r <- aws_publish_property_state (update_code e) ;;
    (if negb (r =? WM_SUCCESS)
     then wmprintf "Sending property failed"
     else ret tt) ;;
    extern (c_os_thread_sleep 100) 0 ;;
    ret true
  else ret false.

(** The label [out]. *)
Definition aws_starter_demo_out : M unit :=
  extern c_os_thread_self_complete 0 ;;
  modify (set_aws_starter_thread thread_completed).

(** ** The WLAN event handlers *)

Definition wlan_event_normal_link_lost : M unit :=
  extern c_aws_iot_shadow_disconnect 0 ;;
  modify (set_device_state AWS_DISCONNECTED).

Definition wlan_event_normal_connect_failed : M unit :=
  extern c_aws_iot_shadow_disconnect 0 ;;
  modify (set_device_state AWS_DISCONNECTED).

(** [os_thread_create] for the application thread; on success the thread
    exists. *)
Definition os_thread_create (create_code : Z) : M Z :=
  r <- extern c_os_thread_create create_code ;;
  (if r =? WM_SUCCESS
   then
     n <- gets threads_created ;;
     modify (set_threads_created (S n)) ;;
     modify (set_aws_starter_thread thread_created)
   else ret tt) ;;
  ret r.

(** [wlan_event_normal_connected]: the station interface has connected to
    the home AP. *)
Definition wlan_event_normal_connected (create_code : Z) : M unit :=
  wmprintf "Connected successfully to the configured network" ;;
  ds <- gets device_state ;;
  go_on <- (if ds =? 0
            then
              extern (c_wmtime_time_set_posix 1459468800) 0 ;;
              r <- os_thread_create create_code ;;
              if negb (r =? WM_SUCCESS)
              then wmprintf "Failed to start cloud_thread: %d" ;; ret false
              else ret true
            else ret true) ;;
  if go_on
  then
    ds <- gets device_state ;;
    if ds =? 0
    then modify (set_device_state AWS_CONNECTED)
    else if ds =? AWS_DISCONNECTED
         then modify (set_device_state AWS_RECONNECTED)
         else ret tt
  else ret tt.

(** ** The system as a transition system *)

Inductive event : Type :=
| ev_pushbutton_a
| ev_pushbutton_b
| ev_link_lost
| ev_connect_failed
| ev_connected (create_code : Z)
| ev_thread_setup (e : setup_env)
| ev_thread_iteration (e : tick_env).

(** One atomic step.  The thread's steps happen only where the thread is. *)
Definition step (ev : event) : M unit :=
  match ev with
  | ev_pushbutton_a => pushbutton_a_cb
  | ev_pushbutton_b => pushbutton_b_cb
  | ev_link_lost => wlan_event_normal_link_lost
  | ev_connect_failed => wlan_event_normal_connect_failed
  | ev_connected create_code => wlan_event_normal_connected create_code
  | ev_thread_setup e =>
      th <- gets aws_starter_thread ;;
      match th with
      | thread_created =>
          ok <- aws_starter_demo_setup e ;;
          if ok
          then modify (set_aws_starter_thread thread_in_loop)
          else aws_starter_demo_out
      | _ => ret tt
      end
  | ev_thread_iteration e =>
      th <- gets aws_starter_thread ;;
      match th with
      | thread_in_loop =>
          ok <- aws_starter_demo_iteration e ;;
          if ok then ret tt else aws_starter_demo_out
      | _ => ret tt
      end
  end.

Fixpoint run (evs : list event) : M unit :=
  match evs with
  | [] => ret tt
  | ev :: rest => step ev ;; run rest
  end.

(** The documents handed to [aws_iot_shadow_update] in a list of calls. *)
Fixpoint published (cs : list call) : list string :=
  match cs with
  | [] => []
  | c_aws_iot_shadow_update doc :: rest => doc :: published rest
  | _ :: rest => published rest
  end.

(** ** What the specification calls FieldTracker and DeltaEncoder *)

(** [changed_fields()] in the specification's words: the fields whose
    current value differs from the last reported one, buttons before the
    actuator. *)
Definition spec_changed_fields (w : world) : list (string * Z) :=
  ((if pushbutton_a_count_prev w =? pushbutton_a_count w
    then [] else [(VAR_BUTTON_A_PROPERTY, pushbutton_a_count w)])
   ++ (if pushbutton_b_count_prev w =? pushbutton_b_count w
       then [] else [(VAR_BUTTON_B_PROPERTY, pushbutton_b_count w)])
   ++ (if led_1_state_prev w =? led_1_state w
       then [] else [(VAR_LED_1_PROPERTY, led_1_state w)]))%list.

(** One member of the reported object: the quoted name, a colon, the value
    in decimal. *)
Definition spec_member (f : string * Z) : string :=
  dq ++ fst f ++ dq ++ ":" ++ fmt_lu (snd f).

Fixpoint spec_members (p : list (string * Z)) : string :=
  match p with
  | [] => ""
  | [f] => spec_member f
  | f :: rest => spec_member f ++ "," ++ spec_members rest
  end.

(** [encode] in the specification's words: nothing for an empty update,
    otherwise the document with the members in order. *)
Definition spec_encode (p : list (string * Z)) : option string :=
  match p with
  | [] => None
  | _ => Some (fmt_reported (spec_members p))
  end.

(** The pending update is empty: every last-reported value equals the
    current one. *)
Definition all_reported (w : world) : Prop :=
  pushbutton_a_count_prev w = pushbutton_a_count w
  /\ pushbutton_b_count_prev w = pushbutton_b_count w
  /\ led_1_state_prev w = led_1_state w.

(** [mark_reported] applied to every field. *)
Definition mark_all_reported (w : world) : world :=
  set_led_1_state_prev (led_1_state w)
    (set_pushbutton_b_count_prev (pushbutton_b_count w)
       (set_pushbutton_a_count_prev (pushbutton_a_count w) w)).

(** The value [led_indicator_cb] stores for a requested value. *)
Definition led_value (v : Z) : Z := if v =? 0 then 0 else 1.

(** ** The publisher's buffer and what it sends *)

(** The local buffer [state] of [aws_publish_property_state] once the three
    fields have been looked at, and the text [ptr] points to after the test
    [*ptr == ','] (these two only serve to state lemmas about the
    publisher). *)
Definition state_buffer (w : world) : string :=
  let s0 := "" in
  let s1 :=
    if negb (pushbutton_a_count_prev w =? pushbutton_a_count w)
    then strcat s0 (snprintf BUFSIZE
                      (fmt_property VAR_BUTTON_A_PROPERTY
                         (pushbutton_a_count w)))
    else s0 in
  let s2 :=
    if negb (pushbutton_b_count_prev w =? pushbutton_b_count w)
    then strcat s1 (snprintf BUFSIZE
                      (fmt_property VAR_BUTTON_B_PROPERTY
                         (pushbutton_b_count w)))
    else s1 in
  if negb (led_1_state_prev w =? led_1_state w)
  then strcat s2 (snprintf BUFSIZE
                    (fmt_property VAR_LED_1_PROPERTY (led_1_state w)))
  else s2.

Definition skip_comma (s : string) : string :=
  match s with
  | String ","%char rest => rest
  | _ => s
  end.

(** What a publish step hands to the SDK for a pending update. *)
Definition publish_calls (doc : option string) : list call :=
  match doc with
  | None => []
  | Some d => [c_wmprintf "Publishing '%s' to AWS"; c_aws_iot_shadow_update d]
  end.

(** The documents a publish step sends for a pending update. *)
Definition sent (doc : option string) : list string :=
  match doc with
  | None => []
  | Some d => [d]
  end.

(** ** The connection state machine read off the handlers *)

(** The value of [device_state] after a step. *)
Definition next_device_state (ev : event) (w : world) : Z :=
  match ev with
  | ev_pushbutton_a | ev_pushbutton_b | ev_thread_setup _ => device_state w
  | ev_link_lost | ev_connect_failed => AWS_DISCONNECTED
  | ev_connected create_code =>
      if device_state w =? 0
      then if create_code =? WM_SUCCESS then AWS_CONNECTED else 0
      else if device_state w =? AWS_DISCONNECTED
           then AWS_RECONNECTED
           else device_state w
  | ev_thread_iteration e =>
      match aws_starter_thread w with
      | thread_in_loop =>
          if (device_state w =? AWS_RECONNECTED)
             && (reinit_code e =? WM_SUCCESS)
             && (reconnect_code e =? WM_SUCCESS)
          then AWS_CONNECTED
          else device_state w
      | _ => device_state w
      end
  end.

(** The number of threads created after a step. *)
Definition next_threads_created (ev : event) (w : world) : nat :=
  match ev with
  | ev_connected create_code =>
      if (device_state w =? 0) && (create_code =? WM_SUCCESS)
      then S (threads_created w)
      else threads_created w
  | _ => threads_created w
  end.

(** No thread exists before the connection state leaves its initial
    value, and at most one afterwards. *)
Definition thread_invariant (w : world) : Prop :=
  (threads_created w <= 1)%nat
  /\ (device_state w = 0 -> threads_created w = 0%nat).

(** A message that is an acknowledgement, not a delta. *)
Definition is_ack (m : inbound_msg) : Prop :=
  match m with in_ack _ => True | in_delta _ => False end.

(** What the loop calls, in order, when a reconnection succeeds. *)
Definition reconnect_calls : list call :=
  [c_aws_iot_shadow_init; c_aws_iot_shadow_connect; c_led_on board_led_2;
   c_aws_iot_shadow_register_delta; c_wmprintf "Reconnected to cloud";
   c_aws_iot_shadow_yield].

(** ** Concrete runs *)

(** A set-up in which every SDK call succeeds. *)
Definition setup_ok : setup_env :=
  mk_setup_env WM_SUCCESS WM_SUCCESS WM_SUCCESS WM_SUCCESS WM_SUCCESS
    WM_SUCCESS WM_SUCCESS WM_SUCCESS.

(** An iteration in which every SDK call succeeds and [msgs] arrive. *)
Definition tick_ok (msgs : list inbound_msg) : tick_env :=
  mk_tick_env WM_SUCCESS WM_SUCCESS WM_SUCCESS msgs WM_SUCCESS.

(** The station connects, the thread starts and reports once. *)
Definition started : list event :=
  [ev_connected WM_SUCCESS; ev_thread_setup setup_ok;
   ev_thread_iteration (tick_ok [])].

(** The state after that: every field reported as 0, [AWS_CONNECTED]. *)
Definition synced : world := st (run started initial_world).

(** Button A pressed once since the last report. *)
Definition pressed_once : world := st (pushbutton_a_cb synced).

(** The document that reports one field. *)
Definition doc_of (name : string) (v : Z) : string :=
  fmt_reported (dq ++ name ++ dq ++ ":" ++ fmt_lu v).

(** Three presses of button A, each one reported, then a fourth; a delta
    asking for the LED to be on has just been delivered: the pending update
    is pb = 3, led = 1. *)
Definition pb3_led1 : world :=
  st (led_indicator_cb (Some 1)
        (st (run [ev_pushbutton_a; ev_thread_iteration (tick_ok []);
                  ev_pushbutton_a; ev_thread_iteration (tick_ok []);
                  ev_pushbutton_a] synced))).

(** The text [{"state": {"reported":{"pb":3,"led":1}}}]. *)
Definition doc_pb3_led1 : string :=
  "{" ++ dq ++ "state" ++ dq ++ ": {" ++ dq ++ "reported" ++ dq ++ ":{"
      ++ dq ++ "pb" ++ dq ++ ":3," ++ dq ++ "led" ++ dq ++ ":1}}}".

(** After the first report the link is lost. *)
Definition link_down : world := st (step ev_link_lost synced).

(** The link is back: the connection state is [AWS_RECONNECTED]. *)
Definition reconnecting : world :=
  st (step (ev_connected WM_SUCCESS) link_down).

(** Button A pressed three times while the link is down, then the link
    comes back. *)
Definition three_presses : world :=
  st (run [ev_pushbutton_a; ev_pushbutton_a; ev_pushbutton_a;
           ev_connected WM_SUCCESS] link_down).

(** The same three presses with an iteration of the loop after each one
    (the update fails: the link is down), then the link comes back. *)
Definition three_presses_ticking : world :=
  st (run [ev_pushbutton_a;
           ev_thread_iteration (mk_tick_env WM_SUCCESS WM_SUCCESS WM_SUCCESS
                                  [] WM_FAIL);
           ev_pushbutton_a;
           ev_thread_iteration (mk_tick_env WM_SUCCESS WM_SUCCESS WM_SUCCESS
                                  [] WM_FAIL);
           ev_pushbutton_a;
           ev_thread_iteration (mk_tick_env WM_SUCCESS WM_SUCCESS WM_SUCCESS
                                  [] WM_FAIL);
           ev_connected WM_SUCCESS] link_down).

(** ** Notions for the properties of whole runs *)





(** The tracked LED state is the level driven on the LED. *)
Definition led_agrees (w : world) : Prop :=
  (led_1_state w = 0 /\ led_1_lit w = false)
  \/ (led_1_state w = 1 /\ led_1_lit w = true).

(** The value of the last delta with a context among [msgs], [acc] when
    there is none. *)
Fixpoint last_request (msgs : list inbound_msg) (acc : option Z) : option Z :=
  match msgs with
  | [] => acc
  | in_delta (Some v) :: rest => last_request rest (Some v)
  | _ :: rest => last_request rest acc
  end.

(** The state once a request has been applied. *)
Definition requested (r : option Z) (w : world) : world :=
  match r with
  | None => w
  | Some v => set_led_1_state (led_value v) (set_led_1_lit (negb (v =? 0)) w)
  end.

(** ** The configuration read at start-up, with its data *)

(** The constants of [aws_iot_config.h], [aws_utils.h] and
    [aws_starter_root_ca_cert.h] that [aws_starter_load_configuration]
    uses; these headers are not among the sources, so the constants are
    parameters. *)
Record aws_iot_config : Type := mk_aws_iot_config {
  AWS_IOT_MQTT_CLIENT_ID : string;
  AWS_IOT_MY_REGION_NAME : string;
  AWS_IOT_MQTT_PORT : Z;
  MAX_SIZE_OF_UNIQUE_CLIENT_ID_BYTES : Z;
  rootCA : string
}.

Definition REGION_LEN : Z := 16.

(** [sizeof(url)]. *)
Definition URL_SIZE : Z := 128.

(** What the persistent memory answers: for each read its return code and
    what it leaves in the buffer. *)
Record stored_config : Type := mk_stored_config {
  stored_thing : Z * string;
  stored_mac : Z * list Z;
  stored_region : Z * string;
  stored_certificate : Z * string;
  stored_key : Z * string
}.

(** [ShadowParameters_t]; a field is [None] until it is assigned. *)
Record ShadowParameters_t : Type := mk_ShadowParameters {
  pMyThingName : option string;
  pMqttClientId : option string;
  pHost : option string;
  port : option Z;
  pRootCA : option string;
  pClientCRT : option string;
  pClientKey : option string
}.

(** A lower-case hexadecimal digit, and its value. *)
Definition hex_char (d : Z) : ascii :=
  if d <? 10
  then ascii_of_nat (48 + Z.to_nat d)
  else ascii_of_nat (87 + Z.to_nat d).

Definition hex_val (c : ascii) : Z :=
  let n := Z.of_nat (nat_of_ascii c) in
  if n <? 58 then n - 48 else n - 87.

(** The conversion [%02x] of a [uint8_t]. *)
Definition fmt_02x (b : Z) : string :=
  String (hex_char (b / 16)) (String (hex_char (b mod 16)) EmptyString).

(** The six bytes [device_mac[0]] .. [device_mac[5]] under
    ["%02x%02x%02x%02x%02x%02x"]. *)
Definition fmt_mac (device_mac : list Z) : string :=
  fmt_02x (nth 0 device_mac 0) ++ fmt_02x (nth 1 device_mac 0)
    ++ fmt_02x (nth 2 device_mac 0) ++ fmt_02x (nth 3 device_mac 0)
    ++ fmt_02x (nth 4 device_mac 0) ++ fmt_02x (nth 5 device_mac 0).

(** The format ["%s-%02x%02x%02x%02x%02x%02x"]. *)
Definition fmt_client_id (prefix : string) (device_mac : list Z) : string :=
  prefix ++ "-" ++ fmt_mac device_mac.

(** The format ["data.iot.%s.amazonaws.com"]. *)
Definition fmt_url (region : string) : string :=
  "data.iot." ++ region ++ ".amazonaws.com".

(** Reading pairs of hexadecimal digits back as bytes. *)
Fixpoint read_mac (s : string) : list Z :=
  match s with
  | String c1 (String c2 rest) =>
      (16 * hex_val c1 + hex_val c2) :: read_mac rest
  | _ => []
  end.

(** Six bytes. *)
Definition is_mac (m : list Z) : Prop :=
  length m = 6%nat /\ Forall (fun b => 0 <= b < 256) m.

(** [aws_starter_load_configuration] with the data it puts in [sp]: the
    same reads and early returns as [aws_starter_load_configuration]
    above, and the fields of [ShadowParameters_t] as they are assigned. *)
Definition aws_starter_load_configuration_sp
  (cfg : aws_iot_config) (p : stored_config) (sp : ShadowParameters_t)
  : M (Z * ShadowParameters_t) :=
  r <- extern (c_read_config "thing") (fst (stored_thing p)) ;;
  if negb (r =? WM_SUCCESS)
  then wmprintf "Failed to configure thing. Returning!" ;;
       ret (- WM_FAIL, sp)
  else
    let sp :=
      mk_ShadowParameters (Some (snd (stored_thing p))) (pMqttClientId sp)
        (pHost sp) (port sp) (pRootCA sp) (pClientCRT sp) (pClientKey sp) in
    r <- extern (c_read_config "device_mac") (fst (stored_mac p)) ;;
    if negb (r =? WM_SUCCESS)
    then wmprintf "Failed to read device mac address. Returning!" ;;
         ret (- WM_FAIL, sp)
    else
      let client_id :=
        snprintf (MAX_SIZE_OF_UNIQUE_CLIENT_ID_BYTES cfg)
          (fmt_client_id (AWS_IOT_MQTT_CLIENT_ID cfg) (snd (stored_mac p))) in
      let sp :=
        mk_ShadowParameters (pMyThingName sp) (Some client_id) (pHost sp)
          (port sp) (pRootCA sp) (pClientCRT sp) (pClientKey sp) in
      r <- extern (c_read_config "region") (fst (stored_region p)) ;;
      let url :=
        if r =? WM_SUCCESS
        then snprintf URL_SIZE (fmt_url (snd (stored_region p)))
        else snprintf URL_SIZE (fmt_url (AWS_IOT_MY_REGION_NAME cfg)) in
      let sp :=
        mk_ShadowParameters (pMyThingName sp) (pMqttClientId sp) (Some url)
          (Some (AWS_IOT_MQTT_PORT cfg)) (Some (rootCA cfg)) (pClientCRT sp)
          (pClientKey sp) in
      r <- extern (c_read_config "certificate")
             (fst (stored_certificate p)) ;;
      if negb (r =? WM_SUCCESS)
      then wmprintf "Failed to configure certificate. Returning!" ;;
           ret (- WM_FAIL, sp)
      else
        let sp :=
          mk_ShadowParameters (pMyThingName sp) (pMqttClientId sp) (pHost sp)
            (port sp) (pRootCA sp) (Some (snd (stored_certificate p)))
            (pClientKey sp) in
        r <- extern (c_read_config "key") (fst (stored_key p)) ;;
        if negb (r =? WM_SUCCESS)
        then wmprintf "Failed to configure key. Returning!" ;;
             ret (- WM_FAIL, sp)
        else
          let sp :=
            mk_ShadowParameters (pMyThingName sp) (pMqttClientId sp)
              (pHost sp) (port sp) (pRootCA sp) (pClientCRT sp)
              (Some (snd (stored_key p))) in
          ret (r, sp).

(** The return codes of the reads of [p], with those of the three shadow
    calls of the set-up. *)
Definition setup_codes (p : stored_config) (i c g : Z) : setup_env :=
  mk_setup_env (fst (stored_thing p)) (fst (stored_mac p))
    (fst (stored_region p)) (fst (stored_certificate p))
    (fst (stored_key p)) i c g.

(** All the reads that must succeed do. *)
Definition reads_ok (e : setup_env) : bool :=
  (thing_code e =? WM_SUCCESS) && (mac_code e =? WM_SUCCESS)
  && (certificate_code e =? WM_SUCCESS) && (key_code e =? WM_SUCCESS).

(** A [sp] in which nothing is assigned yet. *)
Definition sp_unassigned : ShadowParameters_t :=
  mk_ShadowParameters None None None None None None None.

(** ** Button A pressed while the publisher runs *)

(** [n] runs of the interrupt handler of button A. *)
Fixpoint presses_a (n : nat) : M unit :=
  match n with
  | O => ret tt
  | S k => pushbutton_a_cb ;; presses_a k
  end.

(** The block of [aws_publish_property_state] for button A (the test, the
    read of the count by [snprintf], the assignment to
    [pushbutton_a_count_prev]) statement by statement, the interrupt
    handler running [k1] times after the test, [k2] times between the two
    reads of the volatile count and [k3] times after the assignment.  The
    result is the count [snprintf] has read, if the branch is taken. *)
Definition publish_button_a_interrupted (k1 k2 k3 : nat) : M (option Z) :=
  a_prev <- gets pushbutton_a_count_prev ;;
  a <- gets pushbutton_a_count ;;
  if negb (a_prev =? a)
  then
    presses_a k1 ;;
    printed <- gets pushbutton_a_count ;;
    presses_a k2 ;;
    marked <- gets pushbutton_a_count ;;
    modify (set_pushbutton_a_count_prev marked) ;;
    presses_a k3 ;;
    ret (Some printed)
  else
    presses_a k1 ;;
    presses_a k2 ;;
    presses_a k3 ;;
    ret None.

(** ** The first document of a run *)

(** Nothing has been reported yet: the last-reported values are the ones
    of the initialisers, the counts are 0 and the LED state is 0 or 1. *)
Definition never_reported (w : world) : Prop :=
  pushbutton_a_count w = 0 /\ pushbutton_b_count w = 0
  /\ (led_1_state w = 0 \/ led_1_state w = 1)
  /\ pushbutton_a_count_prev w = uint32_wrap (-1)
  /\ pushbutton_b_count_prev w = uint32_wrap (-1)
  /\ led_1_state_prev w = uint32_wrap (-1).

(** The document that reports the three fields. *)
Definition doc_of_all (a b l : Z) : string :=
  fmt_reported
    (spec_members
       [(VAR_BUTTON_A_PROPERTY, a); (VAR_BUTTON_B_PROPERTY, b);
        (VAR_LED_1_PROPERTY, l)]).

(** * Properties *)

(** ** Strings and decimal numerals *)

Lemma string_length_append (s t : string) :
  String.length (s ++ t) = (String.length s + String.length t)%nat.
Proof.
  induction s as [|c s IH]; simpl; [reflexivity|].
  now rewrite IH.
Qed.

Lemma string_append_assoc (s t u : string) :
  ((s ++ t) ++ u)%string = (s ++ (t ++ u))%string.
Proof.
  induction s as [|c s IH]; simpl; [reflexivity|].
  now rewrite IH.
Qed.

Lemma string_append_empty_r (s : string) : (s ++ "")%string = s.
Proof.
  induction s as [|c s IH]; simpl; [reflexivity|].
  now rewrite IH.
Qed.

Lemma substring_whole (s : string) (n : nat) :
  (String.length s <= n)%nat -> substring 0 n s = s.
Proof.
  revert n; induction s as [|c s IH]; intros n Hn; simpl in *.
  - destruct n; reflexivity.
  - destruct n as [|n]; [lia|].
    rewrite IH by lia. reflexivity.
Qed.

Lemma snprintf_fits (size : Z) (s : string) :
  strlen s <= size - 1 -> snprintf size s = s.
Proof.
  unfold snprintf, strlen. intros H.
  apply substring_whole. lia.
Qed.

Lemma digit_val_digit_char (d : Z) :
  0 <= d < 10 -> digit_val (digit_char d) = d.
Proof.
  intros H. unfold digit_val, digit_char.
  rewrite nat_ascii_embedding by lia.
  lia.
Qed.

Lemma read_fmt_digits (fuel : nat) :
  forall n acc,
    0 <= n < 2 ^ Z.of_nat fuel ->
    read_decimal (fmt_digits fuel n acc) 0 = read_decimal acc n.
Proof.
  induction fuel as [|f IH]; intros n acc Hn.
  - simpl in *. replace n with 0 by lia. reflexivity.
  - cbn [fmt_digits].
    assert (Hd : 0 <= n mod 10 < 10) by (apply Z.mod_pos_bound; lia).
    destruct (Z.ltb_spec n 10) as [Hlt | Hge].
    + cbn [read_decimal].
      rewrite digit_val_digit_char by assumption.
      rewrite Z.mod_small by lia.
      f_equal.
    + rewrite IH.
      * cbn [read_decimal].
        rewrite digit_val_digit_char by assumption.
        f_equal. pose proof (Z.div_mod n 10). lia.
      * rewrite Nat2Z.inj_succ, Z.pow_succ_r in Hn by lia.
        split; [apply Z.div_pos; lia|].
        apply Z.div_lt_upper_bound; lia.
Qed.

(** [%lu] prints a numeral that reads back as the value printed. *)
Lemma read_fmt_lu (n : Z) : 0 <= n -> read_decimal (fmt_lu n) 0 = n.
Proof.
  intros Hn. unfold fmt_lu.
  rewrite read_fmt_digits; [reflexivity|].
  split; [assumption|].
  destruct (Z.eq_dec n 0) as [-> | Hnz]; [reflexivity|].
  rewrite Nat2Z.inj_succ, Z2Nat.id by apply Z.log2_nonneg.
  apply Z.log2_spec. lia.
Qed.

Lemma fmt_digits_length (fuel : nat) :
  forall (k : nat) n acc,
    (1 <= k)%nat -> 0 <= n < 10 ^ Z.of_nat k ->
    (String.length (fmt_digits fuel n acc) <= k + String.length acc)%nat.
Proof.
  induction fuel as [|f IH]; intros k n acc Hk Hn.
  - simpl. lia.
  - cbn [fmt_digits].
    destruct (Z.ltb_spec n 10) as [Hlt | Hge].
    + simpl. lia.
    + destruct k as [|k]; [lia|].
      destruct k as [|k].
      { change (10 ^ Z.of_nat 1) with 10 in Hn. lia. }
      etransitivity.
      * apply (IH (S k)); [lia|].
        rewrite (Nat2Z.inj_succ (S k)), Z.pow_succ_r in Hn by lia.
        split; [apply Z.div_pos; lia|].
        apply Z.div_lt_upper_bound; lia.
      * simpl. lia.
Qed.

(** A [uint32_t] takes at most ten digits. *)
Lemma fmt_lu_length (n : Z) :
  is_uint32 n -> (String.length (fmt_lu n) <= 10)%nat.
Proof.
  intros [H0 H1]. unfold fmt_lu.
  pose proof (fmt_digits_length (S (Z.to_nat (Z.log2 n))) 10 n "") as H.
  simpl String.length in H. rewrite Nat.add_0_r in H.
  apply H; [lia|].
  split; [assumption|].
  eapply Z.lt_trans; [exact H1|]. reflexivity.
Qed.

Lemma is_digit_digit_char (d : Z) :
  0 <= d < 10 -> is_digit (digit_char d) = true.
Proof.
  intros H. unfold is_digit, digit_char.
  rewrite nat_ascii_embedding by lia.
  apply andb_true_intro. split; apply Nat.leb_le; lia.
Qed.

Lemma fmt_digits_all_digits (fuel : nat) :
  forall n acc,
    all_digits acc = true -> all_digits (fmt_digits fuel n acc) = true.
Proof.
  induction fuel as [|f IH]; intros n acc Hacc; [exact Hacc|].
  cbn [fmt_digits].
  assert (Hd : all_digits (String (digit_char (n mod 10)) acc) = true).
  { cbn [all_digits]. rewrite Hacc, is_digit_digit_char; [reflexivity|].
    apply Z.mod_pos_bound. lia. }
  destruct (n <? 10); [exact Hd | apply IH, Hd].
Qed.

Lemma fmt_digits_nonempty (fuel : nat) :
  forall n acc, acc <> "" -> fmt_digits fuel n acc <> "".
Proof.
  induction fuel as [|f IH]; intros n acc Hacc; [exact Hacc|].
  cbn [fmt_digits].
  destruct (n <? 10); [discriminate | apply IH; discriminate].
Qed.

(** [%lu] prints at least one character, and digits only. *)
Lemma fmt_lu_digits (n : Z) : all_digits (fmt_lu n) = true /\ fmt_lu n <> "".
Proof.
  unfold fmt_lu. split.
  - apply fmt_digits_all_digits. reflexivity.
  - cbn [fmt_digits].
    destruct (n <? 10); [discriminate | apply fmt_digits_nonempty; discriminate].
Qed.

Lemma uint32_wrap_range (z : Z) : is_uint32 (uint32_wrap z).
Proof.
  unfold is_uint32, uint32_wrap. apply Z.mod_pos_bound. reflexivity.
Qed.


(** ** The monad *)

Lemma bind_val {A B : Type} (m : M A) (k : A -> M B) (w : world) :
  val (bind m k w) = val (k (val (m w)) (st (m w))).
Proof.
  unfold bind. destruct (m w) as [a w1 o1]. cbn [val st].
  destruct (k a w1); reflexivity.
Qed.

Lemma bind_st {A B : Type} (m : M A) (k : A -> M B) (w : world) :
  st (bind m k w) = st (k (val (m w)) (st (m w))).
Proof.
  unfold bind. destruct (m w) as [a w1 o1]. cbn [val st].
  destruct (k a w1); reflexivity.
Qed.

Lemma bind_out {A B : Type} (m : M A) (k : A -> M B) (w : world) :
  out (bind m k w) = (out (m w) ++ out (k (val (m w)) (st (m w))))%list.
Proof.
  unfold bind. destruct (m w) as [a w1 o1]. cbn [val st out].
  destruct (k a w1); reflexivity.
Qed.

(** ** The publisher *)

Arguments fmt_lu : simpl never.
Arguments snprintf : simpl never.
Arguments fmt_property : simpl never.
Arguments fmt_reported : simpl never.
Arguments strlen : simpl never.
Arguments strcat : simpl never.


Lemma publish_unfold (u : Z) (w : world) :
  aws_publish_property_state u w
  = if negb (strlen (state_buffer w) =? 0)
    then mk_result u (mark_all_reported w)
           [c_wmprintf "Publishing '%s' to AWS";
            c_aws_iot_shadow_update
              (snprintf BUFSIZE (fmt_reported (skip_comma (state_buffer w))))]
    else mk_result WM_SUCCESS (mark_all_reported w) [].
Proof.
  destruct w as [a ap b bp l lp ds lit th n].
  unfold aws_publish_property_state, mark_all_reported, state_buffer,
    skip_comma.
  cbn.
  destruct (Z.eqb_spec ap a); cbn;
    destruct (Z.eqb_spec bp b); cbn;
    destruct (Z.eqb_spec lp l); cbn;
    match goal with |- context [strlen ?s =? 0] => destruct (strlen s =? 0) end;
    cbn; subst; reflexivity.
Qed.

Lemma fmt_property_fits (name : string) (v : Z) :
  (String.length name <= 100)%nat -> is_uint32 v ->
  snprintf BUFSIZE (fmt_property name v) = fmt_property name v.
Proof.
  intros Hname Hv. apply snprintf_fits.
  pose proof (fmt_lu_length v Hv) as Hlen.
  unfold strlen, fmt_property, BUFSIZE.
  rewrite !string_length_append. simpl String.length. lia.
Qed.

(** Within [uint32_t] the buffer holds the changed members, each after a
    comma, and the document fits [buf_out]. *)
Lemma state_buffer_members (w : world) :
  counters_in_range w ->
  state_buffer w
  = match spec_changed_fields w with
    | [] => ""
    | p => String ","%char (spec_members p)
    end
  /\ snprintf BUFSIZE (fmt_reported (spec_members (spec_changed_fields w)))
     = fmt_reported (spec_members (spec_changed_fields w)).
Proof.
  destruct w as [a ap b bp l lp ds lit th n].
  unfold counters_in_range.
  cbn [pushbutton_a_count pushbutton_b_count led_1_state].
  intros (Ha & Hb & Hl).
  pose proof (fmt_lu_length a Ha) as La.
  pose proof (fmt_lu_length b Hb) as Lb.
  pose proof (fmt_lu_length l Hl) as Ll.
  unfold state_buffer, spec_changed_fields.
  cbn [pushbutton_a_count pushbutton_a_count_prev pushbutton_b_count
       pushbutton_b_count_prev led_1_state led_1_state_prev].
  rewrite !fmt_property_fits by (assumption || (simpl; lia)).
  unfold strcat, fmt_property, spec_member, VAR_BUTTON_A_PROPERTY,
    VAR_BUTTON_B_PROPERTY, VAR_LED_1_PROPERTY, dq.
  destruct (Z.eqb_spec ap a), (Z.eqb_spec bp b), (Z.eqb_spec lp l);
    cbn [negb app spec_members]; unfold spec_member, dq;
    cbn [fst snd append]; split;
    rewrite ?string_append_assoc; cbn [append];
    rewrite ?string_append_empty_r; try reflexivity.
  all: apply snprintf_fits; unfold strlen, fmt_reported, BUFSIZE, dq;
    cbn [append];
    repeat (first [rewrite string_length_append
                  | progress cbn [String.length]]);
    lia.
Qed.

(** [strcat] never writes past the end of [state]. *)
Lemma state_buffer_fits (w : world) :
  counters_in_range w -> strlen (state_buffer w) < BUFSIZE.
Proof.
  destruct w as [a ap b bp l lp ds lit th n].
  unfold counters_in_range.
  cbn [pushbutton_a_count pushbutton_b_count led_1_state].
  intros (Ha & Hb & Hl).
  pose proof (fmt_lu_length a Ha) as La.
  pose proof (fmt_lu_length b Hb) as Lb.
  pose proof (fmt_lu_length l Hl) as Ll.
  unfold state_buffer.
  cbn [pushbutton_a_count pushbutton_a_count_prev pushbutton_b_count
       pushbutton_b_count_prev led_1_state led_1_state_prev].
  rewrite !fmt_property_fits by (assumption || (simpl; lia)).
  unfold strcat, strlen, fmt_property, BUFSIZE, VAR_BUTTON_A_PROPERTY,
    VAR_BUTTON_B_PROPERTY, VAR_LED_1_PROPERTY, dq.
  destruct (ap =? a), (bp =? b), (lp =? l); cbn [negb append];
    repeat (first [rewrite string_length_append
                  | progress cbn [String.length append]]);
    lia.
Qed.

Lemma publish_st (u : Z) (w : world) :
  st (aws_publish_property_state u w) = mark_all_reported w.
Proof.
  rewrite publish_unfold. destruct (negb _); reflexivity.
Qed.

Lemma publish_out (u : Z) (w : world) :
  counters_in_range w ->
  out (aws_publish_property_state u w)
  = publish_calls (spec_encode (spec_changed_fields w)).
Proof.
  intros Hrange.
  destruct (state_buffer_members w Hrange) as [Hbuf Hfit].
  rewrite publish_unfold, Hbuf.
  destruct (spec_changed_fields w) as [|f p]; [reflexivity|].
  cbn [skip_comma]. rewrite Hfit. reflexivity.
Qed.

Lemma changed_fields_nil (w : world) :
  spec_changed_fields w = [] <-> all_reported w.
Proof.
  unfold spec_changed_fields, all_reported.
  destruct (Z.eqb_spec (pushbutton_a_count_prev w) (pushbutton_a_count w)),
    (Z.eqb_spec (pushbutton_b_count_prev w) (pushbutton_b_count w)),
    (Z.eqb_spec (led_1_state_prev w) (led_1_state w));
    simpl; split; intros H; try discriminate; try tauto.
Qed.

Lemma mark_all_reported_id (w : world) :
  all_reported w -> mark_all_reported w = w.
Proof.
  destruct w as [a ap b bp l lp ds lit th n].
  unfold all_reported, mark_all_reported. simpl.
  intros (-> & -> & ->). reflexivity.
Qed.

Lemma all_reported_mark (w : world) : all_reported (mark_all_reported w).
Proof.
  unfold all_reported, mark_all_reported. simpl. auto.
Qed.

Lemma snprintf_head (c : ascii) (s : string) :
  snprintf BUFSIZE (String c s) = String c (substring 0 126 s).
Proof. reflexivity. Qed.

(** The buffer is empty exactly when nothing has changed. *)
Lemma state_buffer_empty (w : world) :
  (strlen (state_buffer w) =? 0)
  = match spec_changed_fields w with [] => true | _ => false end.
Proof.
  unfold state_buffer, spec_changed_fields, fmt_property, strcat.
  cbn [append]. rewrite !snprintf_head.
  destruct (pushbutton_a_count_prev w =? pushbutton_a_count w),
    (pushbutton_b_count_prev w =? pushbutton_b_count w),
    (led_1_state_prev w =? led_1_state w); reflexivity.
Qed.

(** With nothing to report the publisher does nothing at all. *)
Lemma publish_nothing (u : Z) (w : world) :
  all_reported w ->
  aws_publish_property_state u w = mk_result WM_SUCCESS w [].
Proof.
  intros H. rewrite publish_unfold, state_buffer_empty.
  apply changed_fields_nil in H as Hnil. rewrite Hnil.
  cbn [negb]. rewrite mark_all_reported_id by assumption. reflexivity.
Qed.

(** The return code: the SDK's when a document is sent. *)
Lemma publish_val (u : Z) (w : world) :
  val (aws_publish_property_state u w)
  = match spec_changed_fields w with [] => WM_SUCCESS | _ => u end.
Proof.
  rewrite publish_unfold, state_buffer_empty.
  destruct (spec_changed_fields w); reflexivity.
Qed.

(** ** The loop body *)

Lemma result_eq {A : Type} (r r' : result A) :
  val r = val r' -> st r = st r' -> out r = out r' -> r = r'.
Proof.
  destruct r, r'. cbn [val st out]. intros -> -> ->. reflexivity.
Qed.

Ltac monad_simp :=
  repeat first
    [ rewrite bind_val | rewrite bind_st | rewrite bind_out
    | progress cbn beta iota zeta delta
        [val st out ret gets modify extern wmprintf led_on led_off] ].

Lemma published_app (xs ys : list call) :
  published (xs ++ ys) = (published xs ++ published ys)%list.
Proof.
  induction xs as [|c xs IH]; simpl; [reflexivity|].
  destruct c; simpl; rewrite ?IH; reflexivity.
Qed.

(** The loop body, statement by statement. *)
Lemma iteration_unfold (e : tick_env) (w : world) :
  aws_starter_demo_iteration e w
  = let r := aws_starter_demo_reconnect e w in
    if val r
    then
      let y := aws_iot_shadow_yield (inbound e) (st r) in
      let p := aws_publish_property_state (update_code e) (st y) in
      mk_result true (st p)
        (out r ++ out y ++ out p
           ++ (if negb (val p =? WM_SUCCESS)
               then [c_wmprintf "Sending property failed"] else [])
           ++ [c_os_thread_sleep 100])%list
    else mk_result false (st r) (out r ++ [])%list.
Proof.
  cbn zeta. unfold aws_starter_demo_iteration.
  apply result_eq; monad_simp;
    destruct (val (aws_starter_demo_reconnect e w)); monad_simp;
    try reflexivity;
    destruct (negb _); monad_simp; reflexivity.
Qed.

(** The reconnection, case by case. *)
Lemma reconnect_unfold (e : tick_env) (w : world) :
  aws_starter_demo_reconnect e w
  = if device_state w =? AWS_RECONNECTED
    then
      if negb (reinit_code e =? WM_SUCCESS)
      then mk_result false w
             [c_aws_iot_shadow_init; c_wmprintf "aws shadow init failed: %d"]
      else if negb (reconnect_code e =? WM_SUCCESS)
      then mk_result false w
             [c_aws_iot_shadow_init; c_aws_iot_shadow_connect;
              c_wmprintf "aws shadow reconnect failed: %d"]
      else mk_result true (set_device_state AWS_CONNECTED w)
             [c_aws_iot_shadow_init; c_aws_iot_shadow_connect;
              c_led_on board_led_2; c_aws_iot_shadow_register_delta;
              c_wmprintf "Reconnected to cloud"]
    else mk_result true w [].
Proof.
  unfold aws_starter_demo_reconnect, bind, gets. cbn iota beta.
  destruct (device_state w =? AWS_RECONNECTED); [|reflexivity].
  unfold extern. cbn iota beta.
  destruct (reinit_code e =? WM_SUCCESS); [|reflexivity].
  cbn [negb]. cbn iota beta.
  destruct (reconnect_code e =? WM_SUCCESS); reflexivity.
Qed.

(** Delivering messages touches the actuator field and the LED only. *)
Lemma deliver_frame (msgs : list inbound_msg) :
  forall w,
    let w' := st (deliver msgs w) in
    pushbutton_a_count w' = pushbutton_a_count w
    /\ pushbutton_a_count_prev w' = pushbutton_a_count_prev w
    /\ pushbutton_b_count w' = pushbutton_b_count w
    /\ pushbutton_b_count_prev w' = pushbutton_b_count_prev w
    /\ led_1_state_prev w' = led_1_state_prev w
    /\ device_state w' = device_state w
    /\ aws_starter_thread w' = aws_starter_thread w
    /\ threads_created w' = threads_created w
    /\ published (out (deliver msgs w)) = [].
Proof.
  induction msgs as [|m msgs IH]; intros w; cbn zeta.
  - simpl. tauto.
  - cbn [deliver]. rewrite bind_st, bind_out.
    rewrite published_app.
    specialize (IH (st (dispatch m w))). cbn zeta in IH.
    destruct IH as (H1 & H2 & H3 & H4 & H5 & H6 & H7 & H8 & H9).
    rewrite H1, H2, H3, H4, H5, H6, H7, H8, H9.
    destruct m as [[v|]|[]]; simpl; try tauto.
    destruct (negb (v =? 0)); simpl; tauto.
Qed.

(** Acknowledgements change nothing. *)
Lemma deliver_acks (msgs : list inbound_msg) (w : world) :
  Forall is_ack msgs -> st (deliver msgs w) = w.
Proof.
  induction 1 as [|m msgs Hm _ IH]; [reflexivity|].
  cbn [deliver]. rewrite bind_st.
  destruct m as [?|status]; [destruct Hm|].
  destruct status; exact IH.
Qed.

Lemma published_publish_calls (doc : option string) :
  published (publish_calls doc) = sent doc.
Proof. destruct doc; reflexivity. Qed.

Lemma reconnect_published (e : tick_env) (w : world) :
  published (out (aws_starter_demo_reconnect e w)) = [].
Proof.
  rewrite reconnect_unfold.
  destruct (device_state w =? AWS_RECONNECTED); [|reflexivity].
  destruct (negb (reinit_code e =? WM_SUCCESS)); [reflexivity|].
  destruct (negb (reconnect_code e =? WM_SUCCESS)); reflexivity.
Qed.

Lemma reconnect_counters (e : tick_env) (w : world) :
  counters_in_range w ->
  counters_in_range (st (aws_starter_demo_reconnect e w)).
Proof.
  rewrite reconnect_unfold.
  destruct (device_state w =? AWS_RECONNECTED); [|trivial].
  destruct (negb (reinit_code e =? WM_SUCCESS)); [trivial|].
  destruct (negb (reconnect_code e =? WM_SUCCESS)); trivial.
Qed.

Lemma yield_unfold (msgs : list inbound_msg) (w : world) :
  st (aws_iot_shadow_yield msgs w) = st (deliver msgs w)
  /\ out (aws_iot_shadow_yield msgs w)
     = c_aws_iot_shadow_yield :: out (deliver msgs w).
Proof.
  unfold aws_iot_shadow_yield. rewrite bind_st, bind_out. split; reflexivity.
Qed.

(** An iteration in which no delta arrives: the pending update of the
    state left by the reconnection is sent and marked reported. *)
Lemma iteration_quiet (e : tick_env) (w : world) :
  Forall is_ack (inbound e) ->
  counters_in_range w ->
  val (aws_starter_demo_reconnect e w) = true ->
  let w0 := st (aws_starter_demo_reconnect e w) in
  val (aws_starter_demo_iteration e w) = true
  /\ st (aws_starter_demo_iteration e w) = mark_all_reported w0
  /\ published (out (aws_starter_demo_iteration e w))
     = sent (spec_encode (spec_changed_fields w0)).
Proof.
  intros Hacks Hrange Hgo w0.
  rewrite iteration_unfold. cbn zeta. rewrite Hgo.
  destruct (yield_unfold (inbound e) w0) as [Hst Hout]. fold w0.
  rewrite Hst, Hout, (deliver_acks _ _ Hacks).
  cbn [val st out].
  split; [reflexivity|]. split; [apply publish_st|].
  rewrite !published_app, reconnect_published.
  destruct (deliver_frame (inbound e) w0)
    as (_ & _ & _ & _ & _ & _ & _ & _ & Hd).
  cbn [app published]. rewrite Hd.
  rewrite publish_out by (apply reconnect_counters; assumption).
  rewrite published_publish_calls.
  destruct (negb _); cbn [published app]; rewrite app_nil_r; reflexivity.
Qed.

(** ** FieldTracker: recording *)

Lemma pushbutton_a_cb_unfold (w : world) :
  pushbutton_a_cb w
  = mk_result tt
      (if pushbutton_a_count_prev w =? pushbutton_a_count w
       then set_pushbutton_a_count (uint32_wrap (pushbutton_a_count w + 1)) w
       else w) [].
Proof.
  unfold pushbutton_a_cb, bind, gets. cbn iota beta.
  destruct (_ =? _); reflexivity.
Qed.

Lemma pushbutton_b_cb_unfold (w : world) :
  pushbutton_b_cb w
  = mk_result tt
      (if pushbutton_b_count_prev w =? pushbutton_b_count w
       then set_pushbutton_b_count (uint32_wrap (pushbutton_b_count w + 1)) w
       else w) [].
Proof.
  unfold pushbutton_b_cb, bind, gets. cbn iota beta.
  destruct (_ =? _); reflexivity.
Qed.

Lemma led_indicator_cb_unfold (v : Z) (w : world) :
  led_indicator_cb (Some v) w
  = mk_result tt
      (set_led_1_state (led_value v) (set_led_1_lit (negb (v =? 0)) w))
      [if v =? 0 then c_led_off led_1 else c_led_on led_1].
Proof.
  unfold led_indicator_cb, led_value, bind, modify, led_on, led_off.
  destruct (v =? 0); reflexivity.
Qed.

(** C1, as the code has it: a push-button press increments the field's
    current value (modulo 2^32) only when the current value equals the last
    reported one; while an unreported value is pending the press changes
    nothing.  A delta for the actuator stores its value (1 for a non-zero
    request, 0 otherwise) whatever the last reported value is. *)
Theorem record_guarded_for_buttons (v : Z) (w : world) :
  pushbutton_a_cb w
  = mk_result tt
      (if pushbutton_a_count_prev w =? pushbutton_a_count w
       then set_pushbutton_a_count (uint32_wrap (pushbutton_a_count w + 1)) w
       else w) []
  /\ pushbutton_b_cb w
     = mk_result tt
         (if pushbutton_b_count_prev w =? pushbutton_b_count w
          then set_pushbutton_b_count
                 (uint32_wrap (pushbutton_b_count w + 1)) w
          else w) []
  /\ led_1_state (st (led_indicator_cb (Some v) w)) = led_value v
  /\ led_1_state_prev (st (led_indicator_cb (Some v) w)) = led_1_state_prev w.
Proof.
  split; [apply pushbutton_a_cb_unfold|].
  split; [apply pushbutton_b_cb_unfold|].
  rewrite led_indicator_cb_unfold. split; reflexivity.
Qed.

(** C1 as stated fails: with one press not yet reported, a second press
    does not move the count to the new value. *)
Lemma press_on_unreported_count_is_ignored :
  pushbutton_a_count pressed_once = 1
  /\ pushbutton_a_count_prev pressed_once = 0
  /\ pushbutton_a_count (st (pushbutton_a_cb pressed_once))
     <> uint32_wrap (pushbutton_a_count pressed_once + 1).
Proof.
  repeat split; try reflexivity.
  vm_compute. discriminate.
Qed.

(** ** RemoteDeltaApplier *)

(** C3, as the code has it: a delta with value [v] switches the LED on
    when [v] is not zero and off when it is zero, and stores 1 or 0 (not
    [v] itself) in the tracker; the next publish reports the actuator field
    with that stored value, when it differs from the last reported one. *)
Theorem led_request_is_normalised (v u : Z) (w : world) :
  is_uint32 (pushbutton_a_count w) ->
  is_uint32 (pushbutton_b_count w) ->
  let w' := st (led_indicator_cb (Some v) w) in
  out (led_indicator_cb (Some v) w)
  = [if v =? 0 then c_led_off led_1 else c_led_on led_1]
  /\ w' = set_led_1_state (led_value v) (set_led_1_lit (negb (v =? 0)) w)
  /\ led_1_lit w' = negb (v =? 0)
  /\ led_1_state w' = (if v =? 0 then 0 else 1)
  /\ (v = 0 \/ v = 1 -> led_1_state w' = v)
  /\ published (out (aws_publish_property_state u w'))
     = sent (spec_encode (spec_changed_fields w'))
  /\ (forall x, In (VAR_LED_1_PROPERTY, x) (spec_changed_fields w')
                <-> x = led_value v /\ led_1_state_prev w <> led_value v).
Proof.
  intros Ha Hb w'. subst w'.
  rewrite led_indicator_cb_unfold. cbn [val st out].
  split; [reflexivity|]. split; [reflexivity|]. split; [reflexivity|].
  split; [reflexivity|].
  split.
  { intros [-> | ->]; reflexivity. }
  split.
  - rewrite publish_out, published_publish_calls; [reflexivity|].
    unfold counters_in_range, is_uint32 in *. simpl.
    unfold led_value. destruct (v =? 0); lia.
  - intros x. unfold spec_changed_fields. simpl.
    rewrite !in_app_iff.
    destruct (Z.eqb_spec (pushbutton_a_count_prev w) (pushbutton_a_count w)),
      (Z.eqb_spec (pushbutton_b_count_prev w) (pushbutton_b_count w)),
      (Z.eqb_spec (led_1_state_prev w) (led_value v));
      simpl; split;
      try (intros [H | [H | H]]); try (intros [H1 H2]);
      repeat match goal with
             | H : _ \/ _ |- _ => destruct H
             | H : False |- _ => destruct H
             | H : (_, _) = (_, _) |- _ => inversion H; clear H
             end;
      subst; try discriminate; try tauto; auto.
Qed.

Lemma led_request_is_normalised_witness :
  led_1_state (st (led_indicator_cb (Some 5) synced)) = 1
  /\ published
       (out (aws_publish_property_state WM_SUCCESS
               (st (led_indicator_cb (Some 5) synced))))
     = [doc_of VAR_LED_1_PROPERTY 1].
Proof.
  assert (Ha : is_uint32 (pushbutton_a_count synced))
    by (unfold is_uint32; vm_compute; split; congruence).
  assert (Hb : is_uint32 (pushbutton_b_count synced))
    by (unfold is_uint32; vm_compute; split; congruence).
  destruct (led_request_is_normalised 5 WM_SUCCESS synced Ha Hb)
    as (_ & _ & _ & H4 & _ & H6 & _).
  split; [exact H4|].
  rewrite H6. reflexivity.
Defined.

(** C3 as stated fails: a request for the value 2 stores 1, and the next
    publish echoes 1, not 2. *)
Lemma led_request_two_echoes_one :
  led_1_state (st (led_indicator_cb (Some 2) synced)) <> 2
  /\ published
       (out (step (ev_thread_iteration (tick_ok [in_delta (Some 2)])) synced))
     = [doc_of VAR_LED_1_PROPERTY 1]
  /\ doc_of VAR_LED_1_PROPERTY 1 <> doc_of VAR_LED_1_PROPERTY 2.
Proof.
  split; [vm_compute; discriminate|].
  split; [vm_compute; reflexivity|].
  vm_compute. discriminate.
Qed.

(** C9: a delta callback run twice in a row leaves the same LED level and
    the same tracker as run once, so the second run adds nothing to the
    changed fields; and once the first run has been through a publish, the
    second run leaves the actuator field out of the changed fields, so it
    is not published again. *)
Theorem led_indicator_cb_idempotent (r : option Z) (u : Z) (w : world) :
  let once := st (led_indicator_cb r w) in
  let twice := st (led_indicator_cb r once) in
  let reported := st (aws_publish_property_state u once) in
  let again := st (led_indicator_cb r reported) in
  twice = once
  /\ led_1_lit twice = led_1_lit once
  /\ spec_changed_fields twice = spec_changed_fields once
  /\ again = reported
  /\ (forall x, ~ In (VAR_LED_1_PROPERTY, x) (spec_changed_fields again))
  /\ spec_changed_fields again = [].
Proof.
  cbn zeta.
  assert (Htwice :
            st (led_indicator_cb r (st (led_indicator_cb r w)))
            = st (led_indicator_cb r w)).
  { destruct r as [v|]; [|reflexivity].
    rewrite !led_indicator_cb_unfold. cbn [st].
    destruct w; reflexivity. }
  assert (Hagain :
            st (led_indicator_cb r
                  (st (aws_publish_property_state u
                         (st (led_indicator_cb r w)))))
            = st (aws_publish_property_state u (st (led_indicator_cb r w)))).
  { rewrite publish_st.
    destruct r as [v|]; [|reflexivity].
    rewrite !led_indicator_cb_unfold. cbn [st].
    destruct w; reflexivity. }
  rewrite Htwice, Hagain, publish_st.
  repeat split.
  - intros x Hin.
    unfold spec_changed_fields, mark_all_reported in Hin. simpl in Hin.
    rewrite !Z.eqb_refl in Hin. destruct Hin.
  - apply changed_fields_nil, all_reported_mark.
Qed.

(** ** DeltaEncoder *)

Lemma changed_fields_members (w : world) (name : string) (x : Z) :
  In (name, x) (spec_changed_fields w)
  <-> (name = VAR_BUTTON_A_PROPERTY /\ x = pushbutton_a_count w
       /\ pushbutton_a_count_prev w <> pushbutton_a_count w)
      \/ (name = VAR_BUTTON_B_PROPERTY /\ x = pushbutton_b_count w
          /\ pushbutton_b_count_prev w <> pushbutton_b_count w)
      \/ (name = VAR_LED_1_PROPERTY /\ x = led_1_state w
          /\ led_1_state_prev w <> led_1_state w).
Proof.
  unfold spec_changed_fields. rewrite !in_app_iff.
  destruct (Z.eqb_spec (pushbutton_a_count_prev w) (pushbutton_a_count w)),
    (Z.eqb_spec (pushbutton_b_count_prev w) (pushbutton_b_count w)),
    (Z.eqb_spec (led_1_state_prev w) (led_1_state w));
    simpl; split; intros H;
    repeat match goal with
           | H : _ \/ _ |- _ => destruct H
           | H : _ /\ _ |- _ => destruct H
           | H : False |- _ => destruct H
           | H : (_, _) = (_, _) |- _ => inversion H; clear H
           end;
    subst; try contradiction; auto 10.
Qed.

(** The names appear in the order pb, pb_lambda, led. *)
Lemma changed_fields_order (w : world) :
  exists (ka kb kl : bool),
    map fst (spec_changed_fields w)
    = ((if ka then [VAR_BUTTON_A_PROPERTY] else [])
       ++ (if kb then [VAR_BUTTON_B_PROPERTY] else [])
       ++ (if kl then [VAR_LED_1_PROPERTY] else []))%list.
Proof.
  unfold spec_changed_fields.
  exists (negb (pushbutton_a_count_prev w =? pushbutton_a_count w)),
    (negb (pushbutton_b_count_prev w =? pushbutton_b_count w)),
    (negb (led_1_state_prev w =? led_1_state w)).
  destruct (_ =? _), (_ =? _), (_ =? _); reflexivity.
Qed.

(** C5: when some field has changed, the publisher hands the SDK exactly
    one document, [{"state": {"reported":{...}}}], whose members are the
    changed fields and only those, in the order pb, pb_lambda, led, each
    value an unsigned decimal numeral that reads back as the value; for the
    pending update pb = 3, led = 1 the document is
    [{"state": {"reported":{"pb":3,"led":1}}}]. *)
Theorem publish_encodes_changed_fields (u : Z) (w : world) :
  counters_in_range w ->
  spec_changed_fields w <> [] ->
  published (out (aws_publish_property_state u w))
  = [fmt_reported (spec_members (spec_changed_fields w))]
  /\ spec_encode (spec_changed_fields w)
     = Some (fmt_reported (spec_members (spec_changed_fields w)))
  /\ (forall name x,
         In (name, x) (spec_changed_fields w)
         <-> (name = VAR_BUTTON_A_PROPERTY /\ x = pushbutton_a_count w
              /\ pushbutton_a_count_prev w <> pushbutton_a_count w)
             \/ (name = VAR_BUTTON_B_PROPERTY /\ x = pushbutton_b_count w
                 /\ pushbutton_b_count_prev w <> pushbutton_b_count w)
             \/ (name = VAR_LED_1_PROPERTY /\ x = led_1_state w
                 /\ led_1_state_prev w <> led_1_state w))
  /\ (exists (ka kb kl : bool),
         map fst (spec_changed_fields w)
         = ((if ka then [VAR_BUTTON_A_PROPERTY] else [])
            ++ (if kb then [VAR_BUTTON_B_PROPERTY] else [])
            ++ (if kl then [VAR_LED_1_PROPERTY] else []))%list)
  /\ (forall name x,
         In (name, x) (spec_changed_fields w) ->
         all_digits (fmt_lu x) = true /\ fmt_lu x <> ""
         /\ read_decimal (fmt_lu x) 0 = x)
  /\ (spec_changed_fields w
      = [(VAR_BUTTON_A_PROPERTY, 3); (VAR_LED_1_PROPERTY, 1)] ->
      published (out (aws_publish_property_state u w)) = [doc_pb3_led1]).
Proof.
  intros Hrange Hne.
  assert (Hdoc : spec_encode (spec_changed_fields w)
                 = Some (fmt_reported (spec_members (spec_changed_fields w)))).
  { destruct (spec_changed_fields w); [contradiction|reflexivity]. }
  assert (Hpub : published (out (aws_publish_property_state u w))
                 = [fmt_reported (spec_members (spec_changed_fields w))]).
  { rewrite publish_out, published_publish_calls, Hdoc by assumption.
    reflexivity. }
  split; [exact Hpub|]. split; [exact Hdoc|].
  split; [intros name x; apply changed_fields_members|].
  split; [apply changed_fields_order|].
  split.
  - intros name x Hin.
    split; [apply fmt_lu_digits|]. split; [apply fmt_lu_digits|].
    apply read_fmt_lu.
    destruct Hrange as (Ha & Hb & Hl).
    apply changed_fields_members in Hin.
    destruct Hin as [(_ & -> & _) | [(_ & -> & _) | (_ & -> & _)]];
      [apply Ha | apply Hb | apply Hl].
  - intros Heq. rewrite Hpub, Heq. reflexivity.
Qed.

Lemma publish_encodes_changed_fields_witness :
  spec_changed_fields pb3_led1
  = [(VAR_BUTTON_A_PROPERTY, 3); (VAR_LED_1_PROPERTY, 1)]
  /\ published (out (aws_publish_property_state WM_SUCCESS pb3_led1))
     = [doc_pb3_led1].
Proof.
  assert (Hrange : counters_in_range pb3_led1).
  { unfold counters_in_range, is_uint32. vm_compute.
    repeat split; congruence. }
  assert (Hne : spec_changed_fields pb3_led1 <> []).
  { vm_compute. discriminate. }
  split; [vm_compute; reflexivity|].
  apply (publish_encodes_changed_fields WM_SUCCESS pb3_led1 Hrange Hne).
  vm_compute. reflexivity.
Defined.

(** C6: when no field differs from its last reported value the pending
    update is empty, the encoder yields nothing, and the publisher returns
    [WM_SUCCESS] with the state untouched and without any call: no document
    is built and [aws_iot_shadow_update] is not called. *)
Theorem publish_nothing_when_unchanged (u : Z) (w : world) :
  all_reported w ->
  spec_changed_fields w = []
  /\ spec_encode (spec_changed_fields w) = None
  /\ aws_publish_property_state u w = mk_result WM_SUCCESS w []
  /\ published (out (aws_publish_property_state u w)) = [].
Proof.
  intros H.
  assert (Hnil : spec_changed_fields w = []) by (apply changed_fields_nil, H).
  rewrite Hnil, publish_nothing by assumption.
  repeat split.
Qed.

Lemma publish_nothing_when_unchanged_witness :
  all_reported synced
  /\ aws_publish_property_state WM_FAIL synced
     = mk_result WM_SUCCESS synced [].
Proof.
  assert (H : all_reported synced) by (vm_compute; repeat split).
  split; [exact H|].
  apply (publish_nothing_when_unchanged WM_FAIL synced H).
Defined.


(** ** ConnectionLifecycle *)

Lemma iteration_frame (e : tick_env) (w : world) :
  let r := aws_starter_demo_reconnect e w in
  let i := aws_starter_demo_iteration e w in
  val i = val r
  /\ device_state (st i) = device_state (st r)
  /\ aws_starter_thread (st i) = aws_starter_thread (st r)
  /\ threads_created (st i) = threads_created (st r).
Proof.
  cbn zeta. rewrite iteration_unfold. cbn zeta.
  destruct (val (aws_starter_demo_reconnect e w)); cbn [val st out];
    [|tauto].
  rewrite publish_st.
  destruct (yield_unfold (inbound e) (st (aws_starter_demo_reconnect e w)))
    as [Hst _].
  destruct (deliver_frame (inbound e) (st (aws_starter_demo_reconnect e w)))
    as (_ & _ & _ & _ & _ & H6 & H7 & H8 & _).
  unfold mark_all_reported. simpl. rewrite Hst. tauto.
Qed.

Lemma setup_frame (e : setup_env) (w : world) :
  st (aws_starter_demo_setup e w) = w.
Proof.
  unfold aws_starter_demo_setup, aws_starter_load_configuration, bind,
    extern, wmprintf, ret, led_on.
  cbn iota beta.
  repeat (match goal with
          | |- context [negb (?a =? ?b)] => destruct (a =? b)
          end; cbn [negb]; cbn iota beta);
    reflexivity.
Qed.

Lemma out_frame (w : world) :
  device_state (st (aws_starter_demo_out w)) = device_state w
  /\ threads_created (st (aws_starter_demo_out w)) = threads_created w
  /\ aws_starter_thread (st (aws_starter_demo_out w)) = thread_completed.
Proof. repeat split. Qed.

Lemma connected_unfold (c : Z) (w : world) :
  st (wlan_event_normal_connected c w)
  = if device_state w =? 0
    then if c =? WM_SUCCESS
         then set_device_state AWS_CONNECTED
                (set_aws_starter_thread thread_created
                   (set_threads_created (S (threads_created w)) w))
         else w
    else if device_state w =? AWS_DISCONNECTED
         then set_device_state AWS_RECONNECTED w
         else w.
Proof.
  unfold wlan_event_normal_connected. monad_simp.
  destruct (Z.eqb_spec (device_state w) 0) as [H0|H0]; monad_simp.
  - unfold os_thread_create. monad_simp.
    destruct (c =? WM_SUCCESS); monad_simp; cbn [negb]; monad_simp;
      [|reflexivity].
    cbn [device_state set_aws_starter_thread set_threads_created].
    rewrite H0. reflexivity.
  - destruct (Z.eqb_spec (device_state w) 0); [contradiction|].
    destruct (device_state w =? AWS_DISCONNECTED); reflexivity.
Qed.

Lemma connected_out (c : Z) (w : world) :
  device_state w <> 0 ->
  out (wlan_event_normal_connected c w)
  = [c_wmprintf "Connected successfully to the configured network"].
Proof.
  intros H. unfold wlan_event_normal_connected. monad_simp.
  destruct (Z.eqb_spec (device_state w) 0); [contradiction|]. monad_simp.
  destruct (Z.eqb_spec (device_state w) 0); [contradiction|].
  destruct (device_state w =? AWS_DISCONNECTED); reflexivity.
Qed.

(** The thread's steps. *)
Lemma step_setup_st (e : setup_env) (w : world) :
  st (step (ev_thread_setup e) w)
  = match aws_starter_thread w with
    | thread_created =>
        set_aws_starter_thread
          (if val (aws_starter_demo_setup e w)
           then thread_in_loop else thread_completed) w
    | _ => w
    end.
Proof.
  unfold step. monad_simp.
  destruct (aws_starter_thread w); try reflexivity.
  monad_simp. rewrite setup_frame.
  destruct (val (aws_starter_demo_setup e w)); reflexivity.
Qed.

Lemma step_iteration_st (e : tick_env) (w : world) :
  st (step (ev_thread_iteration e) w)
  = match aws_starter_thread w with
    | thread_in_loop =>
        if val (aws_starter_demo_iteration e w)
        then st (aws_starter_demo_iteration e w)
        else set_aws_starter_thread thread_completed
               (st (aws_starter_demo_iteration e w))
    | _ => w
    end.
Proof.
  unfold step. monad_simp.
  destruct (aws_starter_thread w); try reflexivity.
  monad_simp.
  destruct (val (aws_starter_demo_iteration e w)); reflexivity.
Qed.

Lemma step_iteration_out (e : tick_env) (w : world) :
  aws_starter_thread w = thread_in_loop ->
  out (step (ev_thread_iteration e) w)
  = (out (aws_starter_demo_iteration e w)
       ++ (if val (aws_starter_demo_iteration e w)
           then [] else [c_os_thread_self_complete]))%list.
Proof.
  intros H. unfold step. monad_simp. rewrite H. monad_simp.
  destruct (val (aws_starter_demo_iteration e w)); reflexivity.
Qed.

Lemma step_device_state (ev : event) (w : world) :
  device_state (st (step ev w)) = next_device_state ev w.
Proof.
  destruct ev as [| | | |c|e|e]; unfold next_device_state.
  - unfold step, pushbutton_a_cb. monad_simp.
    destruct (_ =? _); reflexivity.
  - unfold step, pushbutton_b_cb. monad_simp.
    destruct (_ =? _); reflexivity.
  - reflexivity.
  - reflexivity.
  - unfold step. rewrite connected_unfold.
    destruct (Z.eqb_spec (device_state w) 0) as [H|H].
    + destruct (c =? WM_SUCCESS); [reflexivity|exact H].
    + destruct (device_state w =? AWS_DISCONNECTED); reflexivity.
  - rewrite step_setup_st. destruct (aws_starter_thread w); reflexivity.
  - rewrite step_iteration_st.
    destruct (aws_starter_thread w); try reflexivity.
    destruct (iteration_frame e w) as (Hv & Hd & _).
    assert (Hds : device_state
                    (if val (aws_starter_demo_iteration e w)
                     then st (aws_starter_demo_iteration e w)
                     else set_aws_starter_thread thread_completed
                            (st (aws_starter_demo_iteration e w)))
                  = device_state (st (aws_starter_demo_iteration e w))).
    { destruct (val (aws_starter_demo_iteration e w)); reflexivity. }
    rewrite Hds, Hd, reconnect_unfold.
    destruct (device_state w =? AWS_RECONNECTED); [|reflexivity].
    destruct (reinit_code e =? WM_SUCCESS); [|reflexivity].
    destruct (reconnect_code e =? WM_SUCCESS); reflexivity.
Qed.

Lemma reconnect_threads (e : tick_env) (w : world) :
  threads_created (st (aws_starter_demo_reconnect e w)) = threads_created w.
Proof.
  rewrite reconnect_unfold.
  destruct (device_state w =? AWS_RECONNECTED); [|reflexivity].
  destruct (negb (reinit_code e =? WM_SUCCESS)); [reflexivity|].
  destruct (negb (reconnect_code e =? WM_SUCCESS)); reflexivity.
Qed.

Lemma step_threads_created (ev : event) (w : world) :
  threads_created (st (step ev w)) = next_threads_created ev w.
Proof.
  destruct ev as [| | | |c|e|e]; unfold next_threads_created.
  - unfold step, pushbutton_a_cb. monad_simp.
    destruct (_ =? _); reflexivity.
  - unfold step, pushbutton_b_cb. monad_simp.
    destruct (_ =? _); reflexivity.
  - reflexivity.
  - reflexivity.
  - unfold step. rewrite connected_unfold.
    destruct (device_state w =? 0); cbn [andb].
    + destruct (c =? WM_SUCCESS); reflexivity.
    + destruct (device_state w =? AWS_DISCONNECTED); reflexivity.
  - rewrite step_setup_st. destruct (aws_starter_thread w); reflexivity.
  - rewrite step_iteration_st.
    destruct (aws_starter_thread w); try reflexivity.
    destruct (iteration_frame e w) as (_ & _ & _ & Hn).
    rewrite <- (reconnect_threads e w), <- Hn.
    destruct (val (aws_starter_demo_iteration e w)); reflexivity.
Qed.

Lemma run_cons (ev : event) (evs : list event) (w : world) :
  st (run (ev :: evs) w) = st (run evs (st (step ev w))).
Proof. cbn [run]. rewrite bind_st. reflexivity. Qed.

Lemma step_thread_invariant (ev : event) (w : world) :
  thread_invariant w -> thread_invariant (st (step ev w)).
Proof.
  unfold thread_invariant. intros [Hle H0].
  rewrite step_device_state, step_threads_created.
  destruct ev as [| | | |c|e|e]; unfold next_device_state,
    next_threads_created; try (split; [assumption|]; try assumption).
  - intros H; discriminate H.
  - intros H; discriminate H.
  - destruct (Z.eqb_spec (device_state w) 0) as [Hz|Hz].
    + rewrite (H0 Hz).
      destruct (c =? WM_SUCCESS); cbn [andb]; split; try lia.
      intros H; discriminate H.
    + cbn [andb]. split; [assumption|].
      destruct (Z.eqb_spec (device_state w) AWS_DISCONNECTED);
        [intros H; discriminate H | intros H; contradiction].
  - destruct (aws_starter_thread w); try assumption.
    destruct ((device_state w =? AWS_RECONNECTED) && _ && _);
      [intros H; discriminate H | assumption].
Qed.

Lemma run_thread_invariant (evs : list event) :
  forall w, thread_invariant w -> thread_invariant (st (run evs w)).
Proof.
  induction evs as [|ev evs IH]; intros w Hw; [exact Hw|].
  rewrite run_cons. apply IH, step_thread_invariant, Hw.
Qed.

Lemma deliver_led_range (msgs : list inbound_msg) :
  forall w,
    is_uint32 (led_1_state w) ->
    is_uint32 (led_1_state (st (deliver msgs w))).
Proof.
  induction msgs as [|m msgs IH]; intros w Hw; [exact Hw|].
  cbn [deliver]. rewrite bind_st. apply IH.
  destruct m as [[v|]|status]; cbn [dispatch].
  - rewrite led_indicator_cb_unfold. cbn. unfold led_value, is_uint32.
    destruct (v =? 0); split; (lia || reflexivity).
  - exact Hw.
  - destruct status; exact Hw.
Qed.

Lemma step_counters_in_range (ev : event) (w : world) :
  counters_in_range w -> counters_in_range (st (step ev w)).
Proof.
  intros Hw. pose proof Hw as (Ha & Hb & Hl).
  destruct ev as [| | | |c|e|e].
  - cbn [step]. rewrite pushbutton_a_cb_unfold. cbn [st].
    destruct (_ =? _); [|exact Hw].
    split; [apply uint32_wrap_range | split; assumption].
  - cbn [step]. rewrite pushbutton_b_cb_unfold. cbn [st].
    destruct (_ =? _); [|exact Hw].
    split; [assumption | split; [apply uint32_wrap_range | assumption]].
  - exact Hw.
  - exact Hw.
  - cbn [step]. rewrite connected_unfold.
    destruct (device_state w =? 0);
      [destruct (c =? WM_SUCCESS)
      | destruct (device_state w =? AWS_DISCONNECTED)];
      exact Hw.
  - rewrite step_setup_st.
    destruct (aws_starter_thread w); exact Hw.
  - rewrite step_iteration_st.
    destruct (aws_starter_thread w); try exact Hw.
    assert (Hi : counters_in_range (st (aws_starter_demo_iteration e w))).
    { rewrite iteration_unfold. cbn zeta.
      pose proof (reconnect_counters e w Hw) as Hr.
      destruct (val (aws_starter_demo_reconnect e w)); cbn [st];
        [|exact Hr].
      destruct Hr as (Ha' & Hb' & Hl').
      rewrite publish_st.
      destruct (yield_unfold (inbound e)
                  (st (aws_starter_demo_reconnect e w))) as [-> _].
      destruct (deliver_frame (inbound e)
                  (st (aws_starter_demo_reconnect e w)))
        as (H1 & _ & H3 & _).
      unfold counters_in_range, mark_all_reported.
      cbn [pushbutton_a_count pushbutton_b_count led_1_state
           set_pushbutton_a_count_prev set_pushbutton_b_count_prev
           set_led_1_state_prev].
      rewrite H1, H3.
      split; [exact Ha' | split; [exact Hb'|]].
      apply deliver_led_range; assumption. }
    destruct (val (aws_starter_demo_iteration e w)); exact Hi.
Qed.

(** Every counter of a reachable state is a [uint32_t] value. *)
Lemma reachable_counters_in_range (evs : list event) :
  forall w, counters_in_range w -> counters_in_range (st (run evs w)).
Proof.
  induction evs as [|ev evs IH]; intros w Hw; [exact Hw|].
  rewrite run_cons. apply IH, step_counters_in_range, Hw.
Qed.

(** C4: a link-lost event leaves the connection state [AWS_DISCONNECTED],
    whatever it was: from [AWS_DISCONNECTED] the state of the program is
    unchanged, from [AWS_CONNECTED] the state becomes [AWS_DISCONNECTED] and
    never [AWS_RECONNECTED]; and a step that enters [AWS_RECONNECTED] is a
    link-connected event taken in [AWS_DISCONNECTED]. *)
Theorem link_lost_never_reconnects (ev : event) (w : world) :
  device_state (st (wlan_event_normal_link_lost w)) = AWS_DISCONNECTED
  /\ device_state (st (wlan_event_normal_link_lost w)) <> AWS_RECONNECTED
  /\ (device_state w = AWS_DISCONNECTED ->
      st (wlan_event_normal_link_lost w) = w)
  /\ (device_state (st (step ev w)) = AWS_RECONNECTED ->
      device_state w <> AWS_RECONNECTED ->
      device_state w = AWS_DISCONNECTED /\ exists c, ev = ev_connected c).
Proof.
  split; [reflexivity|]. split; [discriminate|]. split.
  - destruct w. cbn. intros ->. reflexivity.
  - rewrite step_device_state.
    destruct ev as [| | | |c|e|e]; unfold next_device_state; intros H Hn;
      try contradiction; try discriminate.
    + destruct (device_state w =? 0).
      * destruct (c =? WM_SUCCESS); discriminate.
      * destruct (Z.eqb_spec (device_state w) AWS_DISCONNECTED);
          [eauto | contradiction].
    + destruct (aws_starter_thread w); try contradiction.
      destruct ((device_state w =? AWS_RECONNECTED) && _ && _);
        [discriminate | contradiction].
Qed.

Lemma link_lost_never_reconnects_witness :
  st (wlan_event_normal_link_lost link_down) = link_down
  /\ device_state link_down = AWS_DISCONNECTED
  /\ exists c, ev_connected WM_SUCCESS = ev_connected c.
Proof.
  destruct (link_lost_never_reconnects (ev_connected WM_SUCCESS) link_down)
    as (_ & _ & H3 & H4).
  split; [apply H3; reflexivity|].
  apply H4; [reflexivity | discriminate].
Defined.

(** ** SyncLoop *)

Lemma completed_thread_is_idle (e : tick_env) (w : world) :
  aws_starter_thread w = thread_completed ->
  step (ev_thread_iteration e) w = mk_result tt w [].
Proof.
  intros H. unfold step, bind, gets. cbn iota beta. rewrite H. reflexivity.
Qed.

(** C8: an iteration that starts in [AWS_RECONNECTED] first calls
    [aws_iot_shadow_init]; when that and [aws_iot_shadow_connect] succeed
    the state becomes [AWS_CONNECTED], the delta is registered again and
    the iteration goes on to yield and publish; when either fails nothing
    else is called, the loop is left, the thread completes and no later
    iteration runs. *)
Theorem reconnecting_iteration (e : tick_env) (w : world) :
  device_state w = AWS_RECONNECTED ->
  aws_starter_thread w = thread_in_loop ->
  let ok := (reinit_code e =? WM_SUCCESS) && (reconnect_code e =? WM_SUCCESS) in
  let i := aws_starter_demo_iteration e w in
  let w' := st (step (ev_thread_iteration e) w) in
  (exists rest, out i = c_aws_iot_shadow_init :: rest)
  /\ val i = ok
  /\ (if ok
      then device_state (st i) = AWS_CONNECTED
           /\ (exists rest, out i = (reconnect_calls ++ rest)%list)
           /\ aws_starter_thread w' = thread_in_loop
      else st i = w
           /\ ~ In c_aws_iot_shadow_register_delta (out i)
           /\ ~ In c_aws_iot_shadow_yield (out i)
           /\ published (out i) = []
           /\ w' = set_aws_starter_thread thread_completed w
           /\ (exists pre,
                  out (step (ev_thread_iteration e) w)
                  = (pre ++ [c_os_thread_self_complete])%list)
           /\ (forall e',
                  step (ev_thread_iteration e') w' = mk_result tt w' [])).
Proof.
  intros Hds Hth. cbn zeta.
  rewrite step_iteration_st, Hth.
  rewrite (step_iteration_out e w Hth).
  destruct (iteration_frame e w) as (Hv & Hd & Ht & _).
  rewrite iteration_unfold in *. cbn zeta in *.
  destruct (yield_unfold (inbound e) (st (aws_starter_demo_reconnect e w)))
    as [_ Hy].
  rewrite Hy in *. clear Hy.
  rewrite reconnect_unfold in *. rewrite Hds in *.
  change (AWS_RECONNECTED =? AWS_RECONNECTED) with true in *. cbn iota in *.
  destruct (reinit_code e =? WM_SUCCESS); cbn [negb andb] in *.
  - destruct (reconnect_code e =? WM_SUCCESS); cbn [negb andb val st out] in *.
    + split; [eexists; reflexivity|]. split; [reflexivity|].
      split; [exact Hd|]. split; [eexists; reflexivity|].
      rewrite Ht. exact Hth.
    + split; [eexists; reflexivity|]. split; [reflexivity|].
      split; [reflexivity|].
      split; [intros [H|[H|[H|[]]]]; discriminate H|].
      split; [intros [H|[H|[H|[]]]]; discriminate H|].
      split; [reflexivity|]. split; [reflexivity|].
      split; [eexists; reflexivity|].
      intros e'. apply completed_thread_is_idle. reflexivity.
  - cbn [val st out] in *.
    split; [eexists; reflexivity|]. split; [reflexivity|].
    split; [reflexivity|].
    split; [intros [H|[H|[]]]; discriminate H|].
    split; [intros [H|[H|[]]]; discriminate H|].
    split; [reflexivity|]. split; [reflexivity|].
    split; [eexists; reflexivity|].
    intros e'. apply completed_thread_is_idle. reflexivity.
Qed.

Lemma reconnecting_iteration_witness :
  device_state reconnecting = AWS_RECONNECTED
  /\ val (aws_starter_demo_iteration (tick_ok []) reconnecting) = true
  /\ device_state (st (aws_starter_demo_iteration (tick_ok []) reconnecting))
     = AWS_CONNECTED.
Proof.
  assert (Hds : device_state reconnecting = AWS_RECONNECTED) by reflexivity.
  assert (Hth : aws_starter_thread reconnecting = thread_in_loop)
    by reflexivity.
  destruct (reconnecting_iteration (tick_ok []) reconnecting Hds Hth)
    as (_ & Hv & Hok).
  split; [exact Hds|]. split; [exact Hv|].
  apply Hok.
Defined.

(** C10: the connection state starts at 0, which is none of the
    enumerators; along every run from the initial state at most one thread
    is created; a step that creates a thread is a link-connected event
    taken in state 0 whose [os_thread_create] succeeds, and it sets
    [AWS_CONNECTED]; once the state is not 0 it never is again, and a
    link-connected event then makes no call to [os_thread_create] and at
    most moves [AWS_DISCONNECTED] to [AWS_RECONNECTED]. *)
Theorem thread_created_at_most_once
  (evs : list event) (ev : event) (c : Z) (w : world) :
  device_state initial_world = 0
  /\ (forall s : state, state_value s <> 0)
  /\ (threads_created (st (run evs initial_world)) <= 1)%nat
  /\ (threads_created (st (step ev w)) <> threads_created w ->
      device_state w = 0
      /\ ev = ev_connected WM_SUCCESS
      /\ device_state (st (step ev w)) = AWS_CONNECTED
      /\ threads_created (st (step ev w)) = S (threads_created w))
  /\ (device_state w <> 0 ->
      device_state (st (step ev w)) <> 0
      /\ ~ In c_os_thread_create (out (wlan_event_normal_connected c w))
      /\ st (wlan_event_normal_connected c w)
         = if device_state w =? AWS_DISCONNECTED
           then set_device_state AWS_RECONNECTED w
           else w).
Proof.
  split; [reflexivity|].
  split; [intros []; discriminate|].
  split.
  { apply (run_thread_invariant evs initial_world).
    split; [apply Nat.le_0_l | reflexivity]. }
  split.
  - rewrite step_device_state, step_threads_created.
    destruct ev as [| | | |c'|e|e]; unfold next_device_state,
      next_threads_created; intros H; try contradiction.
    destruct (Z.eqb_spec (device_state w) 0) as [H0|H0]; cbn [andb] in *;
      [|contradiction].
    destruct (Z.eqb_spec c' WM_SUCCESS) as [->|Hc]; [|contradiction].
    repeat split. exact H0.
  - intros H. split.
    + rewrite step_device_state.
      destruct ev as [| | | |c'|e|e]; unfold next_device_state;
        try assumption; try discriminate.
      * destruct (Z.eqb_spec (device_state w) 0); [contradiction|].
        destruct (device_state w =? AWS_DISCONNECTED);
          [discriminate | assumption].
      * destruct (aws_starter_thread w); try assumption.
        destruct ((device_state w =? AWS_RECONNECTED) && _ && _);
          [discriminate | assumption].
    + rewrite connected_out by assumption.
      split; [intros [Hc|[]]; discriminate Hc|].
      rewrite connected_unfold.
      destruct (Z.eqb_spec (device_state w) 0); [contradiction|reflexivity].
Qed.

Lemma thread_created_at_most_once_witness :
  threads_created (st (step (ev_connected WM_SUCCESS) initial_world)) = 1%nat
  /\ device_state (st (step (ev_connected WM_SUCCESS) initial_world))
     = AWS_CONNECTED
  /\ st (wlan_event_normal_connected WM_SUCCESS link_down)
     = set_device_state AWS_RECONNECTED link_down.
Proof.
  destruct (thread_created_at_most_once started (ev_connected WM_SUCCESS)
              WM_SUCCESS initial_world) as (_ & _ & _ & H4 & _).
  destruct (thread_created_at_most_once started (ev_connected WM_SUCCESS)
              WM_SUCCESS link_down) as (_ & _ & _ & _ & H5).
  assert (Hn : threads_created
                 (st (step (ev_connected WM_SUCCESS) initial_world))
               <> threads_created initial_world)
    by (vm_compute; discriminate).
  assert (Hd : device_state link_down <> 0) by (vm_compute; discriminate).
  destruct (H4 Hn) as (_ & _ & Hc & Hs).
  destruct (H5 Hd) as (_ & _ & Hst).
  split; [exact Hs|]. split; [exact Hc|]. exact Hst.
Defined.

Lemma reconnect_reported (e : tick_env) (w : world) :
  all_reported w -> all_reported (st (aws_starter_demo_reconnect e w)).
Proof.
  rewrite reconnect_unfold.
  destruct (device_state w =? AWS_RECONNECTED); [|trivial].
  destruct (negb (reinit_code e =? WM_SUCCESS)); [trivial|].
  destruct (negb (reconnect_code e =? WM_SUCCESS)); trivial.
Qed.

(** With everything reported and no delta arriving, an iteration sends
    nothing and changes nothing beyond what the reconnection does. *)
Lemma iteration_nothing (e : tick_env) (w : world) :
  Forall is_ack (inbound e) ->
  all_reported w ->
  val (aws_starter_demo_iteration e w) = val (aws_starter_demo_reconnect e w)
  /\ st (aws_starter_demo_iteration e w) = st (aws_starter_demo_reconnect e w)
  /\ published (out (aws_starter_demo_iteration e w)) = [].
Proof.
  intros Hacks Hrep.
  pose proof (reconnect_reported e w Hrep) as Hrep'.
  pose proof (reconnect_published e w) as Hpub.
  rewrite iteration_unfold. cbn zeta.
  destruct (yield_unfold (inbound e) (st (aws_starter_demo_reconnect e w)))
    as [Hst Hout].
  destruct (deliver_frame (inbound e) (st (aws_starter_demo_reconnect e w)))
    as (_ & _ & _ & _ & _ & _ & _ & _ & Hd).
  destruct (val (aws_starter_demo_reconnect e w)); cbn [val st out].
  - rewrite Hst, Hout, (deliver_acks _ _ Hacks).
    rewrite publish_nothing by assumption. cbn [val st out].
    split; [reflexivity|]. split; [reflexivity|].
    rewrite !published_app, Hpub. cbn [published app]. rewrite Hd.
    reflexivity.
  - split; [reflexivity|]. split; [reflexivity|].
    rewrite app_nil_r. exact Hpub.
Qed.

(** C7: the publisher sets every last-reported value to the current one
    while it builds the document, before [aws_iot_shadow_update] is called
    and whatever that call returns; the acknowledgement callback changes
    nothing, whatever the status; so the next iteration, if no delta
    arrives, sends nothing, and it goes on unless a reconnection fails. *)
Theorem reported_when_constructed
  (u u' : Z) (status : Shadow_Ack_Status_t) (e : tick_env) (w : world) :
  Forall is_ack (inbound e) ->
  let p := aws_publish_property_state u w in
  st p = mark_all_reported w
  /\ pushbutton_a_count_prev (st p) = pushbutton_a_count w
  /\ pushbutton_b_count_prev (st p) = pushbutton_b_count w
  /\ led_1_state_prev (st p) = led_1_state w
  /\ spec_changed_fields (st p) = []
  /\ st (aws_publish_property_state u' w) = st p
  /\ st (shadow_update_status_cb status (st p)) = st p
  /\ published (out (aws_starter_demo_iteration e (st p))) = []
  /\ val (aws_starter_demo_iteration e (st p))
     = val (aws_starter_demo_reconnect e (st p))
  /\ (device_state w <> AWS_RECONNECTED ->
      val (aws_starter_demo_iteration e (st p)) = true
      /\ st (aws_starter_demo_iteration e (st p)) = st p).
Proof.
  intros Hacks. cbn zeta. rewrite !publish_st.
  assert (Hrep : all_reported (mark_all_reported w))
    by apply all_reported_mark.
  destruct (iteration_nothing e (mark_all_reported w) Hacks Hrep)
    as (Hv & Hs & Hp).
  split; [reflexivity|]. split; [reflexivity|]. split; [reflexivity|].
  split; [reflexivity|].
  split; [apply changed_fields_nil; exact Hrep|].
  split; [reflexivity|].
  split; [destruct status; reflexivity|].
  split; [exact Hp|]. split; [exact Hv|].
  intros Hds. rewrite Hv, Hs, reconnect_unfold.
  change (device_state (mark_all_reported w)) with (device_state w).
  destruct (Z.eqb_spec (device_state w) AWS_RECONNECTED); [contradiction|].
  split; reflexivity.
Qed.

Lemma reported_when_constructed_witness :
  Forall is_ack [in_ack SHADOW_ACK_TIMEOUT; in_ack SHADOW_ACK_REJECTED]
  /\ published
       (out (aws_starter_demo_iteration
               (tick_ok [in_ack SHADOW_ACK_TIMEOUT;
                         in_ack SHADOW_ACK_REJECTED])
               (st (aws_publish_property_state WM_FAIL pressed_once))))
     = [].
Proof.
  assert (Hacks : Forall is_ack
                    (inbound (tick_ok [in_ack SHADOW_ACK_TIMEOUT;
                                       in_ack SHADOW_ACK_REJECTED])))
    by (repeat constructor).
  split; [exact Hacks|].
  apply (reported_when_constructed WM_FAIL WM_SUCCESS SHADOW_ACK_TIMEOUT
           _ pressed_once Hacks).
Defined.

(** ** Presses, reports and reconnection *)

Lemma uint32_wrap_succ_neq (c : Z) :
  is_uint32 c -> uint32_wrap (c + 1) <> c.
Proof.
  unfold is_uint32, uint32_wrap. intros Hc.
  destruct (Z.eq_dec c (2 ^ 32 - 1)) as [-> | Hne].
  - vm_compute. discriminate.
  - rewrite Z.mod_small by lia. lia.
Qed.

Lemma uint32_wrap_succ_succ (c : Z) :
  uint32_wrap (uint32_wrap (c + 1) + 1) = uint32_wrap (c + 2).
Proof.
  unfold uint32_wrap. rewrite Zplus_mod_idemp_l. f_equal. lia.
Qed.

Lemma press_counts (w : world) :
  pushbutton_a_count_prev w = pushbutton_a_count w ->
  st (pushbutton_a_cb w)
  = set_pushbutton_a_count (uint32_wrap (pushbutton_a_count w + 1)) w.
Proof.
  intros H. rewrite pushbutton_a_cb_unfold, H, Z.eqb_refl. reflexivity.
Qed.

Lemma press_ignored (w : world) :
  pushbutton_a_count_prev w <> pushbutton_a_count w ->
  st (pushbutton_a_cb w) = w.
Proof.
  intros H. rewrite pushbutton_a_cb_unfold.
  destruct (Z.eqb_spec (pushbutton_a_count_prev w) (pushbutton_a_count w));
    [contradiction | reflexivity].
Qed.

Lemma step_iteration_quiet (e : tick_env) (w : world) :
  aws_starter_thread w = thread_in_loop ->
  Forall is_ack (inbound e) ->
  counters_in_range w ->
  val (aws_starter_demo_reconnect e w) = true ->
  st (step (ev_thread_iteration e) w)
  = mark_all_reported (st (aws_starter_demo_reconnect e w))
  /\ published (out (step (ev_thread_iteration e) w))
     = sent (spec_encode
               (spec_changed_fields (st (aws_starter_demo_reconnect e w)))).
Proof.
  intros Hth Hacks Hrange Hgo.
  destruct (iteration_quiet e w Hacks Hrange Hgo) as (Hv & Hs & Hp).
  rewrite step_iteration_st, (step_iteration_out e w Hth), Hth, Hv, Hs.
  rewrite app_nil_r, Hp. split; reflexivity.
Qed.

(** C2, as the code has it: starting with every field reported and the
    count of button A at [c], three presses of button A while disconnected,
    with no iteration of the loop in between, move the count to [c + 1]
    only (the second and the third press find an unreported value and do
    nothing); after the link is back and the reconnection succeeds, that
    iteration sends pb = c + 1 once; a fourth press after it makes the
    following iteration send pb = c + 2, and the iteration after that sends
    nothing. *)
Theorem presses_between_reports_count_once
  (e1 e2 e3 : tick_env) (c0 : Z) (w : world) :
  device_state w = AWS_DISCONNECTED ->
  aws_starter_thread w = thread_in_loop ->
  counters_in_range w ->
  all_reported w ->
  reinit_code e1 = WM_SUCCESS ->
  reconnect_code e1 = WM_SUCCESS ->
  Forall is_ack (inbound e1) ->
  Forall is_ack (inbound e2) ->
  Forall is_ack (inbound e3) ->
  let c := pushbutton_a_count w in
  let w3 := st (run [ev_pushbutton_a; ev_pushbutton_a; ev_pushbutton_a;
                     ev_connected c0] w) in
  let t1 := step (ev_thread_iteration e1) w3 in
  let w4 := st (step ev_pushbutton_a (st t1)) in
  let t2 := step (ev_thread_iteration e2) w4 in
  let t3 := step (ev_thread_iteration e3) (st t2) in
  pushbutton_a_count w3 = uint32_wrap (c + 1)
  /\ device_state w3 = AWS_RECONNECTED
  /\ device_state (st t1) = AWS_CONNECTED
  /\ published (out t1)
     = [doc_of VAR_BUTTON_A_PROPERTY (uint32_wrap (c + 1))]
  /\ pushbutton_a_count w4 = uint32_wrap (c + 2)
  /\ published (out t2)
     = [doc_of VAR_BUTTON_A_PROPERTY (uint32_wrap (c + 2))]
  /\ published (out t3) = [].
Proof.
  destruct w as [a ap b bp l lp ds lit th n].
  unfold counters_in_range, all_reported.
  cbn [device_state aws_starter_thread pushbutton_a_count
       pushbutton_a_count_prev pushbutton_b_count pushbutton_b_count_prev
       led_1_state led_1_state_prev].
  intros -> -> (Ha & Hb & Hl) (-> & -> & ->) Hi Hc Ha1 Ha2 Ha3.
  pose proof (uint32_wrap_succ_neq a Ha) as Hne.
  pose proof (uint32_wrap_range (a + 1)) as Ha'.
  pose proof (uint32_wrap_range (a + 2)) as Ha''.
  pose proof (uint32_wrap_succ_neq _ Ha') as Hne'.
  rewrite uint32_wrap_succ_succ in Hne'.
  set (a1 := uint32_wrap (a + 1)) in *.
  set (a2 := uint32_wrap (a + 2)) in *.
  set (w0 := mk_world a a b b l l AWS_DISCONNECTED lit thread_in_loop n).
  set (w1 := mk_world a1 a b b l l AWS_DISCONNECTED lit thread_in_loop n).
  set (w3 := mk_world a1 a b b l l AWS_RECONNECTED lit thread_in_loop n).
  set (w3c := mk_world a1 a1 b b l l AWS_CONNECTED lit thread_in_loop n).
  set (w4 := mk_world a2 a1 b b l l AWS_CONNECTED lit thread_in_loop n).
  set (w5 := mk_world a2 a2 b b l l AWS_CONNECTED lit thread_in_loop n).
  (* the three presses and the link-connected event *)
  assert (F1 : st (run [ev_pushbutton_a; ev_pushbutton_a; ev_pushbutton_a;
                        ev_connected c0] w0) = w3).
  { assert (H1 : st (step ev_pushbutton_a w0) = w1)
      by (apply press_counts; reflexivity).
    assert (H2 : st (step ev_pushbutton_a w1) = w1)
      by (apply press_ignored; cbn; congruence).
    rewrite !run_cons, H1, H2, H2.
    change (run [] ?x) with (ret tt x). cbn [ret st step].
    rewrite connected_unfold. reflexivity. }
  (* the iteration that reconnects *)
  assert (F2 : st (step (ev_thread_iteration e1) w3) = w3c
               /\ published (out (step (ev_thread_iteration e1) w3))
                  = [doc_of VAR_BUTTON_A_PROPERTY a1]).
  { assert (Hr : aws_starter_demo_reconnect e1 w3
                 = mk_result true (set_device_state AWS_CONNECTED w3)
                     [c_aws_iot_shadow_init; c_aws_iot_shadow_connect;
                      c_led_on board_led_2; c_aws_iot_shadow_register_delta;
                      c_wmprintf "Reconnected to cloud"]).
    { rewrite reconnect_unfold, Hi, Hc. reflexivity. }
    destruct (step_iteration_quiet e1 w3) as [Hs Hp];
      [reflexivity | assumption | split; [exact Ha' | split; assumption]
      | rewrite Hr; reflexivity |].
    rewrite Hr in Hs, Hp. rewrite Hs, Hp.
    split; [reflexivity|].
    unfold spec_changed_fields. cbn [st w3 set_device_state
      pushbutton_a_count pushbutton_a_count_prev pushbutton_b_count
      pushbutton_b_count_prev led_1_state led_1_state_prev].
    rewrite !Z.eqb_refl.
    destruct (Z.eqb_spec a a1) as [E|_]; [symmetry in E; contradiction|].
    reflexivity. }
  (* the fourth press *)
  assert (F3 : st (step ev_pushbutton_a w3c) = w4).
  { change (step ev_pushbutton_a) with pushbutton_a_cb.
    rewrite press_counts by reflexivity.
    unfold w3c, w4, a1, a2, set_pushbutton_a_count.
    cbn [pushbutton_a_count pushbutton_a_count_prev pushbutton_b_count
         pushbutton_b_count_prev led_1_state led_1_state_prev device_state
         led_1_lit aws_starter_thread threads_created].
    rewrite uint32_wrap_succ_succ. reflexivity. }
  assert (Hr4 : forall e x,
             device_state x = AWS_CONNECTED ->
             aws_starter_demo_reconnect e x = mk_result true x []).
  { intros e x Hx. rewrite reconnect_unfold, Hx. reflexivity. }
  assert (F4 : st (step (ev_thread_iteration e2) w4) = w5
               /\ published (out (step (ev_thread_iteration e2) w4))
                  = [doc_of VAR_BUTTON_A_PROPERTY a2]).
  { destruct (step_iteration_quiet e2 w4) as [Hs Hp];
      [reflexivity | assumption | split; [exact Ha'' | split; assumption]
      | rewrite Hr4; reflexivity |].
    rewrite Hr4 in Hs, Hp by reflexivity. rewrite Hs, Hp.
    split; [reflexivity|].
    unfold spec_changed_fields. cbn [st w4
      pushbutton_a_count pushbutton_a_count_prev pushbutton_b_count
      pushbutton_b_count_prev led_1_state led_1_state_prev].
    rewrite !Z.eqb_refl.
    destruct (Z.eqb_spec a1 a2) as [E|_]; [symmetry in E; contradiction|].
    reflexivity. }
  (* the iteration after that *)
  assert (F5 : published (out (step (ev_thread_iteration e3) w5)) = []).
  { destruct (iteration_nothing e3 w5 Ha3) as (Hv & _ & Hp);
      [repeat split|].
    rewrite step_iteration_out by reflexivity.
    rewrite published_app, Hp, Hv, Hr4 by reflexivity.
    reflexivity. }
  cbn zeta. cbn [pushbutton_a_count].
  destruct F2 as [F2 P2]. destruct F4 as [F4 P4].
  rewrite F1, F2, P2, F3, F4, P4, F5.
  repeat split.
Qed.

Lemma presses_between_reports_count_once_witness :
  pushbutton_a_count three_presses = 1
  /\ published (out (step (ev_thread_iteration (tick_ok [])) three_presses))
     = [doc_of VAR_BUTTON_A_PROPERTY 1].
Proof.
  assert (H1 : device_state link_down = AWS_DISCONNECTED) by reflexivity.
  assert (H2 : aws_starter_thread link_down = thread_in_loop) by reflexivity.
  assert (H3 : counters_in_range link_down).
  { unfold counters_in_range, is_uint32. vm_compute.
    repeat split; congruence. }
  assert (H4 : all_reported link_down) by (vm_compute; repeat split).
  assert (H5 : Forall is_ack (inbound (tick_ok []))) by constructor.
  destruct (presses_between_reports_count_once (tick_ok []) (tick_ok [])
              (tick_ok []) WM_SUCCESS link_down H1 H2 H3 H4
              eq_refl eq_refl H5 H5 H5) as (Ha & _ & _ & Hp & _).
  split; [exact Ha | exact Hp].
Defined.

(** C2 as stated fails: after three presses while disconnected the
    iteration that follows the reconnection sends pb = 1, not pb = 3, and
    after a fourth press the next one sends pb = 2, not pb = 4.  With an
    iteration between the presses the three values are handed to the SDK
    while the link is down and nothing is sent after the reconnection. *)
Lemma three_presses_report_one :
  device_state three_presses = AWS_RECONNECTED
  /\ published (out (step (ev_thread_iteration (tick_ok [])) three_presses))
     = [doc_of VAR_BUTTON_A_PROPERTY 1]
  /\ doc_of VAR_BUTTON_A_PROPERTY 1 <> doc_of VAR_BUTTON_A_PROPERTY 3
  /\ published
       (out (run [ev_pushbutton_a; ev_thread_iteration (tick_ok [])]
               (st (step (ev_thread_iteration (tick_ok [])) three_presses))))
     = [doc_of VAR_BUTTON_A_PROPERTY 2]
  /\ doc_of VAR_BUTTON_A_PROPERTY 2 <> doc_of VAR_BUTTON_A_PROPERTY 4
  /\ device_state three_presses_ticking = AWS_RECONNECTED
  /\ pushbutton_a_count three_presses_ticking = 3
  /\ published
       (out (step (ev_thread_iteration (tick_ok [])) three_presses_ticking))
     = [].
Proof.
  split; [reflexivity|].
  split; [vm_compute; reflexivity|].
  split; [vm_compute; discriminate|].
  split; [vm_compute; reflexivity|].
  split; [vm_compute; discriminate|].
  split; [reflexivity|].
  split; [vm_compute; reflexivity|].
  vm_compute; reflexivity.
Qed.

(** * Further properties of the program *)

(** ** Runs *)

Lemma run_out_cons (ev : event) (evs : list event) (w : world) :
  out (run (ev :: evs) w)
  = (out (step ev w) ++ out (run evs (st (step ev w))))%list.
Proof. cbn [run]. rewrite bind_out. reflexivity. Qed.





(** ** Invariants of the tracker *)

Lemma reconnect_fields (e : tick_env) (w : world) :
  let w' := st (aws_starter_demo_reconnect e w) in
  pushbutton_a_count w' = pushbutton_a_count w
  /\ pushbutton_a_count_prev w' = pushbutton_a_count_prev w
  /\ pushbutton_b_count w' = pushbutton_b_count w
  /\ pushbutton_b_count_prev w' = pushbutton_b_count_prev w
  /\ led_1_state w' = led_1_state w
  /\ led_1_state_prev w' = led_1_state_prev w
  /\ led_1_lit w' = led_1_lit w.
Proof.
  cbn zeta. rewrite reconnect_unfold.
  destruct (device_state w =? AWS_RECONNECTED); [|tauto].
  destruct (negb (reinit_code e =? WM_SUCCESS)); [tauto|].
  destruct (negb (reconnect_code e =? WM_SUCCESS)); cbn; tauto.
Qed.

(** What an iteration leaves in the tracker. *)
Lemma iteration_st (e : tick_env) (w : world) :
  st (aws_starter_demo_iteration e w)
  = if val (aws_starter_demo_reconnect e w)
    then mark_all_reported
           (st (deliver (inbound e) (st (aws_starter_demo_reconnect e w))))
    else st (aws_starter_demo_reconnect e w).
Proof.
  rewrite iteration_unfold. cbn zeta.
  destruct (val (aws_starter_demo_reconnect e w)); cbn [st]; [|reflexivity].
  rewrite publish_st.
  destruct (yield_unfold (inbound e) (st (aws_starter_demo_reconnect e w)))
    as [-> _].
  reflexivity.
Qed.





Lemma requested_twice (r : option Z) (v : Z) (w : world) :
  requested (Some v) (requested r w) = requested (Some v) w.
Proof. destruct r, w; reflexivity. Qed.

Lemma deliver_requested (msgs : list inbound_msg) :
  forall acc w,
    st (deliver msgs (requested acc w)) = requested (last_request msgs acc) w.
Proof.
  induction msgs as [|m msgs IH]; intros acc w; [reflexivity|].
  cbn [deliver]. rewrite bind_st.
  destruct m as [[v|]|status]; cbn [dispatch last_request].
  - rewrite led_indicator_cb_unfold. cbn [st].
    change (set_led_1_state (led_value v)
              (set_led_1_lit (negb (v =? 0)) (requested acc w)))
      with (requested (Some v) (requested acc w)).
    rewrite requested_twice. apply IH.
  - apply IH.
  - destruct status; apply IH.
Qed.

(** X8: of the deltas delivered in one call of [aws_iot_shadow_yield] only
    the last one with a context counts: the LED and the tracked state end
    as that request asks, deltas with a NULL context and acknowledgements
    change nothing, and the value then due to be published for led is that
    of the last request. *)
Theorem last_delta_wins (msgs : list inbound_msg) (x : Z) (w : world) :
  st (deliver msgs w) = requested (last_request msgs None) w
  /\ (last_request msgs None = None -> st (deliver msgs w) = w)
  /\ (forall v, last_request msgs None = Some v ->
        led_1_state (st (deliver msgs w)) = led_value v
        /\ led_1_lit (st (deliver msgs w)) = negb (v =? 0)
        /\ (In (VAR_LED_1_PROPERTY, x)
              (spec_changed_fields (st (deliver msgs w))) ->
            x = led_value v)).
Proof.
  pose proof (deliver_requested msgs None w) as H.
  change (requested None w) with w in H.
  split; [exact H|]. split.
  - intros E. rewrite H, E. reflexivity.
  - intros v E. rewrite H, E. cbn [requested].
    split; [reflexivity|]. split; [reflexivity|].
    intros Hin. apply changed_fields_members in Hin.
    destruct Hin as [(Hn & _) | [(Hn & _) | (_ & -> & _)]];
      try discriminate Hn.
    reflexivity.
Qed.

Lemma last_delta_wins_witness :
  led_1_state
    (st (deliver [in_delta (Some 1); in_ack SHADOW_ACK_ACCEPTED;
                  in_delta (Some 0); in_delta None] synced)) = 0
  /\ led_1_lit
       (st (deliver [in_delta (Some 1); in_ack SHADOW_ACK_ACCEPTED;
                     in_delta (Some 0); in_delta None] synced)) = false.
Proof.
  destruct (last_delta_wins
              [in_delta (Some 1); in_ack SHADOW_ACK_ACCEPTED;
               in_delta (Some 0); in_delta None] 0 synced)
    as (_ & _ & H).
  destruct (H 0 eq_refl) as (H1 & H2 & _).
  split; [exact H1 | exact H2].
Defined.

Lemma deliver_led_agrees (msgs : list inbound_msg) (w : world) :
  led_agrees w -> led_agrees (st (deliver msgs w)).
Proof.
  intros Hw.
  pose proof (deliver_requested msgs None w) as H.
  change (requested None w) with w in H.
  rewrite H. destruct (last_request msgs None) as [v|]; [|exact Hw].
  unfold led_agrees, requested, led_value.
  cbn [led_1_state led_1_lit set_led_1_state set_led_1_lit].
  destruct (v =? 0); [left | right]; split; reflexivity.
Qed.

Lemma step_led_agrees (ev : event) (w : world) :
  led_agrees w -> led_agrees (st (step ev w)).
Proof.
  intros Hw.
  destruct ev as [| | | |c|e|e].
  - cbn [step]. rewrite pushbutton_a_cb_unfold. cbn [st].
    destruct (_ =? _); exact Hw.
  - cbn [step]. rewrite pushbutton_b_cb_unfold. cbn [st].
    destruct (_ =? _); exact Hw.
  - exact Hw.
  - exact Hw.
  - cbn [step]. rewrite connected_unfold.
    destruct (device_state w =? 0);
      [destruct (c =? WM_SUCCESS)
      | destruct (device_state w =? AWS_DISCONNECTED)];
      exact Hw.
  - rewrite step_setup_st. destruct (aws_starter_thread w); exact Hw.
  - rewrite step_iteration_st.
    destruct (aws_starter_thread w); try exact Hw.
    assert (Hi : led_agrees (st (aws_starter_demo_iteration e w))).
    { rewrite iteration_st.
      destruct (reconnect_fields e w) as (_ & _ & _ & _ & H5 & _ & H7).
      assert (Hr : led_agrees (st (aws_starter_demo_reconnect e w))).
      { unfold led_agrees. rewrite H5, H7. exact Hw. }
      destruct (val (aws_starter_demo_reconnect e w)); [|exact Hr].
      apply (deliver_led_agrees (inbound e)) in Hr.
      exact Hr. }
    destruct (val (aws_starter_demo_iteration e w)); exact Hi.
Qed.

(** X7: if the tracked LED state agrees with the level of the LED (0 and
    off, or 1 and on), it does so after every run: the tracked state is
    always 0 or 1, and a value due to be published for led is the level
    the LED really has. *)
Theorem led_state_is_led_level (evs : list event) (x : Z) (w : world) :
  led_agrees w ->
  let w' := st (run evs w) in
  led_agrees w'
  /\ (led_1_state w' = 0 \/ led_1_state w' = 1)
  /\ (In (VAR_LED_1_PROPERTY, x) (spec_changed_fields w') ->
      x = if led_1_lit w' then 1 else 0).
Proof.
  intros Hw. cbn zeta.
  assert (H : led_agrees (st (run evs w))).
  { revert w Hw. induction evs as [|ev evs IH]; intros w Hw; [exact Hw|].
    rewrite run_cons. apply IH, step_led_agrees, Hw. }
  split; [exact H|]. split.
  - destruct H as [[-> _] | [-> _]]; auto.
  - intros Hin. apply changed_fields_members in Hin.
    destruct Hin as [(Hn & _) | [(Hn & _) | (_ & -> & _)]];
      try discriminate Hn.
    destruct H as [[-> ->] | [-> ->]]; reflexivity.
Qed.

Lemma led_state_is_led_level_witness :
  led_agrees initial_world
  /\ led_agrees
       (st (run (started
                   ++ [ev_thread_iteration (tick_ok [in_delta (Some 7)])])
              initial_world)).
Proof.
  assert (H : led_agrees initial_world) by (left; split; reflexivity).
  split; [exact H|].
  apply (led_state_is_led_level
           (started ++ [ev_thread_iteration (tick_ok [in_delta (Some 7)])])
           0 initial_world H).
Defined.

(** ** The loop body and the connection state *)

Lemma deliver_set_device_state (d : Z) (msgs : list inbound_msg) :
  forall w,
    st (deliver msgs (set_device_state d w))
    = set_device_state d (st (deliver msgs w))
    /\ out (deliver msgs (set_device_state d w)) = out (deliver msgs w).
Proof.
  induction msgs as [|m msgs IH]; intros w; [split; reflexivity|].
  cbn [deliver]. rewrite !bind_st, !bind_out.
  assert (Hm : st (dispatch m (set_device_state d w))
               = set_device_state d (st (dispatch m w))
               /\ out (dispatch m (set_device_state d w))
                  = out (dispatch m w)).
  { destruct m as [[v|]|status]; cbn [dispatch].
    - rewrite !led_indicator_cb_unfold. split; reflexivity.
    - split; reflexivity.
    - destruct status; split; reflexivity. }
  destruct Hm as [-> ->].
  destruct (IH (st (dispatch m w))) as [-> ->].
  split; reflexivity.
Qed.

Lemma publish_set_device_state (d u : Z) (w : world) :
  aws_publish_property_state u (set_device_state d w)
  = mk_result (val (aws_publish_property_state u w))
      (set_device_state d (st (aws_publish_property_state u w)))
      (out (aws_publish_property_state u w)).
Proof.
  rewrite !publish_unfold.
  change (state_buffer (set_device_state d w)) with (state_buffer w).
  change (mark_all_reported (set_device_state d w))
    with (set_device_state d (mark_all_reported w)).
  destruct (negb (strlen (state_buffer w) =? 0)); reflexivity.
Qed.

(** X9: the loop does not look at the connection state before it polls and
    publishes, except to reconnect.  In any state other than
    [AWS_RECONNECTED] (so also in [AWS_DISCONNECTED], and in the initial 0)
    an iteration goes on, makes the same calls, hands the same document to
    [aws_iot_shadow_update] and marks the same fields reported. *)
Theorem publishing_is_not_gated (d : Z) (e : tick_env) (w : world) :
  device_state w <> AWS_RECONNECTED ->
  d <> AWS_RECONNECTED ->
  val (aws_starter_demo_iteration e (set_device_state d w)) = true
  /\ val (aws_starter_demo_iteration e w) = true
  /\ out (aws_starter_demo_iteration e (set_device_state d w))
     = out (aws_starter_demo_iteration e w)
  /\ st (aws_starter_demo_iteration e (set_device_state d w))
     = set_device_state d (st (aws_starter_demo_iteration e w))
  /\ In c_aws_iot_shadow_yield (out (aws_starter_demo_iteration e w)).
Proof.
  intros Hw Hd.
  assert (Hr : forall x, device_state x <> AWS_RECONNECTED ->
                         aws_starter_demo_reconnect e x = mk_result true x []).
  { intros x Hx. rewrite reconnect_unfold.
    destruct (Z.eqb_spec (device_state x) AWS_RECONNECTED);
      [contradiction | reflexivity]. }
  rewrite !iteration_unfold. cbn zeta.
  rewrite (Hr w Hw), (Hr (set_device_state d w)) by exact Hd.
  cbn [val st out app].
  destruct (yield_unfold (inbound e) w) as [Hs1 Ho1].
  destruct (yield_unfold (inbound e) (set_device_state d w)) as [Hs2 Ho2].
  destruct (deliver_set_device_state d (inbound e) w) as [Hs Ho].
  rewrite Hs1, Ho1, Hs2, Ho2, Hs, Ho, publish_set_device_state.
  cbn [val st out].
  split; [reflexivity|]. split; [reflexivity|]. split; [reflexivity|].
  split; [reflexivity|]. left; reflexivity.
Qed.

Lemma publishing_is_not_gated_witness :
  published
    (out (aws_starter_demo_iteration (tick_ok [])
            (set_device_state AWS_DISCONNECTED pressed_once)))
  = [doc_of VAR_BUTTON_A_PROPERTY 1].
Proof.
  assert (Hw : device_state pressed_once <> AWS_RECONNECTED)
    by (vm_compute; discriminate).
  assert (Hd : state_value AWS_DISCONNECTED <> AWS_RECONNECTED)
    by discriminate.
  destruct (publishing_is_not_gated AWS_DISCONNECTED (tick_ok [])
              pressed_once Hw Hd) as (_ & _ & -> & _).
  vm_compute. reflexivity.
Defined.

Lemma deliver_never_logs (s : string) (msgs : list inbound_msg) :
  s = "Sending property failed" ->
  forall w, ~ In (c_wmprintf s) (out (deliver msgs w)).
Proof.
  intros ->.
  induction msgs as [|m msgs IH]; intros w; [intros []|].
  cbn [deliver]. rewrite bind_out, in_app_iff. intros [H|H].
  - destruct m as [[v|]|status]; cbn [dispatch] in H.
    + rewrite led_indicator_cb_unfold in H. cbn [out] in H.
      destruct (v =? 0); destruct H as [H|[]]; discriminate H.
    + destruct H.
    + destruct status; destruct H as [H|[]]; discriminate H.
  - exact (IH _ H).
Qed.

(** X10: what [aws_iot_shadow_update] returns, and what the second
    [aws_iot_shadow_register_delta] of a reconnection returns, changes
    neither the state an iteration leaves, nor whether the loop goes on,
    nor the documents sent: a failed update is only reported on the
    console, and that line is printed exactly when a document was sent
    and the call did not return [WM_SUCCESS]. *)
Theorem update_failure_is_only_logged (r u : Z) (e : tick_env) (w : world) :
  let e' := mk_tick_env (reinit_code e) (reconnect_code e) r (inbound e) u in
  let pending :=
    spec_changed_fields
      (st (deliver (inbound e) (st (aws_starter_demo_reconnect e w)))) in
  val (aws_starter_demo_iteration e' w) = val (aws_starter_demo_iteration e w)
  /\ st (aws_starter_demo_iteration e' w)
     = st (aws_starter_demo_iteration e w)
  /\ published (out (aws_starter_demo_iteration e' w))
     = published (out (aws_starter_demo_iteration e w))
  /\ (In (c_wmprintf "Sending property failed")
        (out (aws_starter_demo_iteration e w))
      <-> val (aws_starter_demo_reconnect e w) = true
          /\ pending <> [] /\ update_code e <> WM_SUCCESS).
Proof.
  cbn zeta.
  set (e' := mk_tick_env (reinit_code e) (reconnect_code e) r (inbound e) u).
  assert (Hr : aws_starter_demo_reconnect e' w
               = aws_starter_demo_reconnect e w).
  { rewrite !reconnect_unfold. reflexivity. }
  destruct (iteration_frame e w) as (Hv & _).
  destruct (iteration_frame e' w) as (Hv' & _).
  split; [rewrite Hv, Hv', Hr; reflexivity|].
  split; [rewrite !iteration_st, Hr; reflexivity|].
  rewrite !iteration_unfold. cbn zeta. rewrite Hr.
  change (inbound e') with (inbound e).
  change (update_code e') with u.
  set (w0 := st (aws_starter_demo_reconnect e w)).
  destruct (yield_unfold (inbound e) w0) as [Hs Ho].
  rewrite Hs, Ho.
  set (w1 := st (deliver (inbound e) w0)).
  assert (Hout : forall x, out (aws_publish_property_state x w1)
                           = out (aws_publish_property_state u w1)).
  { intros x. rewrite !publish_unfold.
    destruct (negb (strlen (state_buffer w1) =? 0)); reflexivity. }
  split.
  - destruct (val (aws_starter_demo_reconnect e w)); cbn [out];
      [|reflexivity].
    rewrite !published_app, (Hout (update_code e)).
    destruct (negb (val (aws_publish_property_state u w1) =? WM_SUCCESS)),
      (negb (val (aws_publish_property_state (update_code e) w1)
             =? WM_SUCCESS)); reflexivity.
  - assert (Hnr : ~ In (c_wmprintf "Sending property failed")
                      (out (aws_starter_demo_reconnect e w))).
    { rewrite reconnect_unfold.
      destruct (device_state w =? AWS_RECONNECTED); [|intros []].
      destruct (negb (reinit_code e =? WM_SUCCESS)).
      { intros [H|[H|[]]]; discriminate H. }
      destruct (negb (reconnect_code e =? WM_SUCCESS)).
      { intros [H|[H|[H|[]]]]; discriminate H. }
      intros [H|[H|[H|[H|[H|[]]]]]]; discriminate H. }
    assert (Hnp : ~ In (c_wmprintf "Sending property failed")
                      (out (aws_publish_property_state (update_code e) w1))).
    { rewrite publish_unfold.
      destruct (negb (strlen (state_buffer w1) =? 0)); [|intros []].
      intros [H|[H|[]]]; discriminate H. }
    pose proof (deliver_never_logs _ (inbound e) eq_refl w0) as Hnd.
    rewrite publish_val. fold w1.
    destruct (val (aws_starter_demo_reconnect e w)); cbn [out].
    + rewrite !in_app_iff. cbn [In].
      destruct (spec_changed_fields w1) as [|f p].
      * cbn. split.
        -- intros [H|[[H|H]|[H|[[]|[H|[]]]]]]; try contradiction;
             discriminate H.
        -- intros (_ & H & _). contradiction.
      * destruct (Z.eqb_spec (update_code e) WM_SUCCESS) as [E|E];
          cbn [negb In]; split.
        -- intros [H|[[H|H]|[H|[[]|[H|[]]]]]]; try contradiction;
             discriminate H.
        -- intros (_ & _ & H). contradiction.
        -- intros _. split; [reflexivity|]. split; [discriminate|exact E].
        -- intros _. right. right. right. left. left. reflexivity.
    + rewrite app_nil_r. split; [intros H; contradiction|].
      intros (H & _). discriminate H.
Qed.

(** ** The size of the documents *)

Lemma reported_length (w : world) :
  counters_in_range w ->
  strlen (fmt_reported (spec_members (spec_changed_fields w))) <= 81.
Proof.
  destruct w as [a ap b bp l lp ds lit th n].
  unfold counters_in_range.
  cbn [pushbutton_a_count pushbutton_b_count led_1_state].
  intros (Ha & Hb & Hl).
  pose proof (fmt_lu_length a Ha) as La.
  pose proof (fmt_lu_length b Hb) as Lb.
  pose proof (fmt_lu_length l Hl) as Ll.
  unfold spec_changed_fields.
  cbn [pushbutton_a_count pushbutton_a_count_prev pushbutton_b_count
       pushbutton_b_count_prev led_1_state led_1_state_prev].
  unfold strlen, fmt_reported, VAR_BUTTON_A_PROPERTY, VAR_BUTTON_B_PROPERTY,
    VAR_LED_1_PROPERTY.
  destruct (ap =? a), (bp =? b), (lp =? l);
    cbn [app spec_members]; unfold spec_member, dq; cbn [fst snd append];
    repeat (first [rewrite string_length_append
                  | progress cbn [String.length append]]);
    lia.
Qed.

Lemma publish_documents_fit (u : Z) (w : world) :
  counters_in_range w ->
  Forall (fun doc => strlen doc <= 81)
    (published (out (aws_publish_property_state u w))).
Proof.
  intros Hw. rewrite publish_out, published_publish_calls by assumption.
  pose proof (reported_length w Hw) as Hlen.
  destruct (spec_changed_fields w); cbn [spec_encode sent];
    [constructor|].
  constructor; [exact Hlen | constructor].
Qed.

Lemma deliver_counters_in_range (msgs : list inbound_msg) (w : world) :
  counters_in_range w -> counters_in_range (st (deliver msgs w)).
Proof.
  intros (Ha & Hb & Hl).
  destruct (deliver_frame msgs w) as (H1 & _ & H3 & _).
  unfold counters_in_range. rewrite H1, H3.
  split; [exact Ha | split; [exact Hb|]].
  apply deliver_led_range. exact Hl.
Qed.

Lemma setup_published (e : setup_env) (w : world) :
  published (out (aws_starter_demo_setup e w)) = [].
Proof.
  unfold aws_starter_demo_setup, aws_starter_load_configuration, bind,
    extern, wmprintf, ret, led_on.
  cbn iota beta.
  repeat (match goal with
          | |- context [negb (?a =? ?b)] => destruct (a =? b)
          end; cbn [negb]; cbn iota beta);
    reflexivity.
Qed.

Lemma connected_published (c : Z) (w : world) :
  published (out (wlan_event_normal_connected c w)) = [].
Proof.
  unfold wlan_event_normal_connected, os_thread_create.
  monad_simp.
  destruct (device_state w =? 0); monad_simp.
  - destruct (c =? WM_SUCCESS); monad_simp; cbn [negb]; monad_simp;
      [|reflexivity].
    destruct (device_state _ =? 0); monad_simp; [reflexivity|].
    destruct (device_state _ =? AWS_DISCONNECTED); reflexivity.
  - destruct (device_state w =? 0); monad_simp; [reflexivity|].
    destruct (device_state w =? AWS_DISCONNECTED); reflexivity.
Qed.

(** What an iteration publishes is what its publisher publishes. *)
Lemma iteration_published (e : tick_env) (w : world) :
  published (out (aws_starter_demo_iteration e w))
  = if val (aws_starter_demo_reconnect e w)
    then published
           (out (aws_publish_property_state (update_code e)
                   (st (deliver (inbound e)
                          (st (aws_starter_demo_reconnect e w))))))
    else [].
Proof.
  rewrite iteration_unfold. cbn zeta.
  destruct (val (aws_starter_demo_reconnect e w)); cbn [out].
  - rewrite !published_app, reconnect_published.
    destruct (yield_unfold (inbound e) (st (aws_starter_demo_reconnect e w)))
      as [Hs Ho].
    rewrite Hs, Ho.
    destruct (deliver_frame (inbound e) (st (aws_starter_demo_reconnect e w)))
      as (_ & _ & _ & _ & _ & _ & _ & _ & Hd).
    cbn [published app]. rewrite Hd. cbn [app].
    destruct (negb _); cbn [published app]; rewrite app_nil_r; reflexivity.
  - rewrite app_nil_r. apply reconnect_published.
Qed.

(** Only an iteration of the running loop publishes. *)
Lemma step_published (ev : event) (w : world) :
  published (out (step ev w))
  = match ev with
    | ev_thread_iteration e =>
        match aws_starter_thread w with
        | thread_in_loop => published (out (aws_starter_demo_iteration e w))
        | _ => []
        end
    | _ => []
    end.
Proof.
  destruct ev as [| | | |c|e|e].
  - cbn [step]. rewrite pushbutton_a_cb_unfold. reflexivity.
  - cbn [step]. rewrite pushbutton_b_cb_unfold. reflexivity.
  - reflexivity.
  - reflexivity.
  - apply connected_published.
  - unfold step. monad_simp.
    destruct (aws_starter_thread w); monad_simp; try reflexivity.
    rewrite !published_app, setup_published.
    destruct (val (aws_starter_demo_setup e w)); reflexivity.
  - destruct (aws_starter_thread w) eqn:Hth;
      try (unfold step; monad_simp; rewrite Hth; reflexivity).
    rewrite step_iteration_out by assumption.
    rewrite published_app.
    destruct (val (aws_starter_demo_iteration e w)); cbn [published];
      apply app_nil_r.
Qed.

Lemma step_documents_fit (ev : event) (w : world) :
  counters_in_range w ->
  Forall (fun doc => strlen doc <= 81) (published (out (step ev w))).
Proof.
  intros Hw. rewrite step_published.
  destruct ev as [| | | |c|e|e]; try constructor.
  destruct (aws_starter_thread w); try constructor.
  rewrite iteration_published.
  destruct (val (aws_starter_demo_reconnect e w)); [|constructor].
  apply publish_documents_fit, deliver_counters_in_range,
    reconnect_counters, Hw.
Qed.

(** X11: along every run from the initial state every document handed to
    [aws_iot_shadow_update] has at most 81 characters, so neither the
    128-byte [buf_out] nor the 128-byte [state] is ever too small and
    [snprintf] never cuts a document. *)
Theorem documents_fit_the_buffer (evs : list event) :
  Forall (fun doc => strlen doc <= 81 /\ strlen doc < BUFSIZE)
    (published (out (run evs initial_world)))
  /\ strlen (state_buffer (st (run evs initial_world))) < BUFSIZE.
Proof.
  assert (H0 : counters_in_range initial_world).
  { unfold counters_in_range, is_uint32. cbn. lia. }
  split.
  - generalize initial_world H0. induction evs as [|ev evs IH]; intros w Hw.
    + constructor.
    + rewrite run_out_cons, published_app. apply Forall_app. split.
      * eapply Forall_impl; [|apply step_documents_fit, Hw].
        cbn beta. unfold BUFSIZE. intros doc Hd. lia.
      * apply IH, step_counters_in_range, Hw.
  - apply state_buffer_fits, reachable_counters_in_range, H0.
Qed.

(** ** The configuration and the set-up of the thread *)

(** The return code and the parameters of a successful read. *)
Lemma load_configuration_result_aux
  (cfg : aws_iot_config) (p : stored_config) (sp : ShadowParameters_t)
  (w : world) :
  let r := aws_starter_load_configuration_sp cfg p sp w in
  fst (val r)
  = (if reads_ok (setup_codes p 0 0 0) then WM_SUCCESS else - WM_FAIL)
  /\ (reads_ok (setup_codes p 0 0 0) = true ->
      snd (val r)
      = mk_ShadowParameters
          (Some (snd (stored_thing p)))
          (Some (snprintf (MAX_SIZE_OF_UNIQUE_CLIENT_ID_BYTES cfg)
                   (fmt_client_id (AWS_IOT_MQTT_CLIENT_ID cfg)
                      (snd (stored_mac p)))))
          (Some (snprintf URL_SIZE
                   (fmt_url (if fst (stored_region p) =? WM_SUCCESS
                             then snd (stored_region p)
                             else AWS_IOT_MY_REGION_NAME cfg))))
          (Some (AWS_IOT_MQTT_PORT cfg))
          (Some (rootCA cfg))
          (Some (snd (stored_certificate p)))
          (Some (snd (stored_key p)))).
Proof.
  destruct p as [[tc tn] [mc mac] [rc rn] [cc ct] [kc kt]].
  cbn zeta.
  unfold aws_starter_load_configuration_sp, setup_codes, reads_ok, bind,
    extern, wmprintf, ret.
  cbn [fst snd thing_code mac_code region_code certificate_code key_code
       stored_thing stored_mac stored_region stored_certificate stored_key].
  cbn iota beta.
  destruct (Z.eqb_spec tc WM_SUCCESS) as [Ht|Ht]; cbn [negb andb];
    cbn iota beta; [|split; [reflexivity | discriminate]].
  destruct (Z.eqb_spec mc WM_SUCCESS) as [Hm|Hm]; cbn [negb andb];
    cbn iota beta; [|split; [reflexivity | discriminate]].
  destruct (Z.eqb_spec cc WM_SUCCESS) as [Hc|Hc]; cbn [negb andb];
    cbn iota beta; [|split; [reflexivity | discriminate]].
  destruct (Z.eqb_spec kc WM_SUCCESS) as [Hk|Hk]; cbn [negb andb];
    cbn iota beta; [|split; [reflexivity | discriminate]].
  cbn [val fst snd pMyThingName pMqttClientId pHost port pRootCA
       pClientCRT pClientKey].
  split; [exact Hk | intros _; destruct (rc =? WM_SUCCESS); reflexivity].
Qed.

(** X1: [aws_starter_load_configuration] returns [WM_SUCCESS] exactly when
    the thing name, the MAC address, the certificate and the key can be
    read, and [-WM_FAIL] otherwise; a region that cannot be read is not an
    error.  On success every field of the shadow parameters is assigned;
    when the thing name cannot be read nothing else is read.  The reads,
    the return code and the messages are those of the model of the
    function the thread uses. *)
Theorem load_configuration_result
  (cfg : aws_iot_config) (p : stored_config) (sp : ShadowParameters_t)
  (i c g : Z) (w : world) :
  let r := aws_starter_load_configuration_sp cfg p sp w in
  let e := setup_codes p i c g in
  st r = w
  /\ fst (val r) = val (aws_starter_load_configuration e w)
  /\ out r = out (aws_starter_load_configuration e w)
  /\ fst (val r) = (if reads_ok e then WM_SUCCESS else - WM_FAIL)
  /\ - WM_FAIL <> WM_SUCCESS
  /\ (reads_ok e = true ->
      snd (val r)
      = mk_ShadowParameters
          (Some (snd (stored_thing p)))
          (Some (snprintf (MAX_SIZE_OF_UNIQUE_CLIENT_ID_BYTES cfg)
                   (fmt_client_id (AWS_IOT_MQTT_CLIENT_ID cfg)
                      (snd (stored_mac p)))))
          (Some (snprintf URL_SIZE
                   (fmt_url (if fst (stored_region p) =? WM_SUCCESS
                             then snd (stored_region p)
                             else AWS_IOT_MY_REGION_NAME cfg))))
          (Some (AWS_IOT_MQTT_PORT cfg))
          (Some (rootCA cfg))
          (Some (snd (stored_certificate p)))
          (Some (snd (stored_key p))))
  /\ (fst (stored_thing p) <> WM_SUCCESS ->
      out r = [c_read_config "thing";
               c_wmprintf "Failed to configure thing. Returning!"]
      /\ snd (val r) = sp).
Proof.
  destruct p as [[tc tn] [mc mac] [rc rn] [cc ct] [kc kt]].
  cbn zeta.
  unfold aws_starter_load_configuration_sp, aws_starter_load_configuration,
    setup_codes, reads_ok, bind, extern, wmprintf, ret.
  cbn [fst snd thing_code mac_code region_code certificate_code key_code
       stored_thing stored_mac stored_region stored_certificate stored_key].
  cbn iota beta.
  destruct (Z.eqb_spec tc WM_SUCCESS) as [Ht|Ht]; cbn [negb andb];
    cbn iota beta.
  2:{ repeat split; try discriminate; try (intros; contradiction). }
  destruct (Z.eqb_spec mc WM_SUCCESS) as [Hm|Hm]; cbn [negb andb];
    cbn iota beta.
  2:{ repeat split; try discriminate; try (intros; contradiction). }
  destruct (Z.eqb_spec cc WM_SUCCESS) as [Hc|Hc]; cbn [negb andb];
    cbn iota beta.
  2:{ destruct (rc =? WM_SUCCESS); repeat split; try discriminate;
        try (intros; contradiction). }
  destruct (Z.eqb_spec kc WM_SUCCESS) as [Hk|Hk]; cbn [negb andb];
    cbn iota beta.
  2:{ destruct (rc =? WM_SUCCESS); repeat split; try discriminate;
        try (intros; contradiction). }
  cbn [val st out fst snd pMyThingName pMqttClientId pHost port pRootCA
       pClientCRT pClientKey].
  destruct (rc =? WM_SUCCESS); repeat split; try discriminate;
    try assumption; try (intros; contradiction).
Qed.

Lemma load_configuration_result_witness :
  fst (val (aws_starter_load_configuration_sp
              (mk_aws_iot_config "wm" "us-east-1" 8883 80 "ca")
              (mk_stored_config (WM_SUCCESS, "thing1")
                 (WM_SUCCESS, [0; 80; 67; 2; 254; 1]) (WM_FAIL, "")
                 (WM_SUCCESS, "crt") (WM_SUCCESS, "key"))
              sp_unassigned initial_world)) = WM_SUCCESS
  /\ pHost (snd (val (aws_starter_load_configuration_sp
              (mk_aws_iot_config "wm" "us-east-1" 8883 80 "ca")
              (mk_stored_config (WM_SUCCESS, "thing1")
                 (WM_SUCCESS, [0; 80; 67; 2; 254; 1]) (WM_FAIL, "")
                 (WM_SUCCESS, "crt") (WM_SUCCESS, "key"))
              sp_unassigned initial_world)))
     = Some "data.iot.us-east-1.amazonaws.com".
Proof.
  destruct (load_configuration_result
              (mk_aws_iot_config "wm" "us-east-1" 8883 80 "ca")
              (mk_stored_config (WM_SUCCESS, "thing1")
                 (WM_SUCCESS, [0; 80; 67; 2; 254; 1]) (WM_FAIL, "")
                 (WM_SUCCESS, "crt") (WM_SUCCESS, "key"))
              sp_unassigned 0 0 0 initial_world)
    as (_ & _ & _ & H4 & _ & H6 & _).
  split; [exact H4|].
  rewrite (H6 eq_refl). reflexivity.
Defined.

Lemma hex_val_hex_char (d : Z) : 0 <= d < 16 -> hex_val (hex_char d) = d.
Proof.
  intros H. unfold hex_val, hex_char.
  destruct (Z.ltb_spec d 10).
  - rewrite nat_ascii_embedding by lia.
    destruct (Z.ltb_spec (Z.of_nat (48 + Z.to_nat d)) 58); lia.
  - rewrite nat_ascii_embedding by lia.
    destruct (Z.ltb_spec (Z.of_nat (87 + Z.to_nat d)) 58); lia.
Qed.

Lemma read_fmt_02x (b : Z) (rest : string) :
  0 <= b < 256 -> read_mac (fmt_02x b ++ rest) = b :: read_mac rest.
Proof.
  intros H. unfold fmt_02x. cbn [append read_mac].
  rewrite !hex_val_hex_char.
  - f_equal. pose proof (Z.div_mod b 16). lia.
  - apply Z.mod_pos_bound. lia.
  - split; [apply Z.div_pos; lia | apply Z.div_lt_upper_bound; lia].
Qed.

(** The text of a MAC address reads back as its six bytes. *)
Lemma read_fmt_mac (m : list Z) : is_mac m -> read_mac (fmt_mac m) = m.
Proof.
  intros [Hlen Hb].
  destruct m as [|b0 [|b1 [|b2 [|b3 [|b4 [|b5 [|]]]]]]]; try discriminate.
  repeat match goal with
         | H : Forall _ (_ :: _) |- _ => inversion H; subst; clear H
         end.
  unfold fmt_mac. cbn [nth].
  rewrite <- (string_append_empty_r (fmt_02x b5)).
  rewrite !read_fmt_02x by assumption. reflexivity.
Qed.

Lemma fmt_mac_length (m : list Z) : String.length (fmt_mac m) = 12%nat.
Proof.
  unfold fmt_mac, fmt_02x. rewrite !string_length_append. reflexivity.
Qed.

Lemma string_append_cancel_l (s a b : string) :
  (s ++ a)%string = (s ++ b)%string -> a = b.
Proof.
  induction s as [|c s IH]; cbn [append]; intros H; [exact H|].
  inversion H. auto.
Qed.

Lemma snprintf_length (size : Z) (s : string) :
  1 <= size -> strlen (snprintf size s) <= size - 1.
Proof.
  intros Hsize. unfold strlen, snprintf.
  assert (H : forall n t, (String.length (substring 0 n t) <= n)%nat).
  { induction n as [|n IH]; intros [|c t]; cbn; try lia.
    specialize (IH t). lia. }
  specialize (H (Z.to_nat (size - 1)) s). lia.
Qed.

(** X2: the client identifier never exceeds its buffer; when the prefix
    leaves room for the dash and the twelve digits it is the prefix, a
    dash and the MAC address in lower-case hexadecimal, from which the MAC
    address can be read back, so two devices with different MAC addresses
    get different client identifiers. *)
Theorem client_id_identifies_the_device
  (cfg : aws_iot_config) (m1 m2 : list Z) :
  let size := MAX_SIZE_OF_UNIQUE_CLIENT_ID_BYTES cfg in
  let prefix := AWS_IOT_MQTT_CLIENT_ID cfg in
  let client_id m := snprintf size (fmt_client_id prefix m) in
  1 <= size ->
  strlen (client_id m1) <= size - 1
  /\ (strlen prefix + 13 <= size - 1 ->
      is_mac m1 -> is_mac m2 ->
      client_id m1 = (prefix ++ "-" ++ fmt_mac m1)%string
      /\ strlen (client_id m1) = strlen prefix + 13
      /\ read_mac (fmt_mac m1) = m1
      /\ (client_id m1 = client_id m2 -> m1 = m2)).
Proof.
  cbn zeta. intros Hsize.
  split; [apply snprintf_length; assumption|].
  intros Hroom H1 H2.
  assert (Hfit : forall m,
             snprintf (MAX_SIZE_OF_UNIQUE_CLIENT_ID_BYTES cfg)
               (fmt_client_id (AWS_IOT_MQTT_CLIENT_ID cfg) m)
             = fmt_client_id (AWS_IOT_MQTT_CLIENT_ID cfg) m).
  { intros m. apply snprintf_fits.
    unfold strlen, fmt_client_id in *.
    rewrite !string_length_append, fmt_mac_length. cbn [String.length].
    lia. }
  rewrite !Hfit. unfold fmt_client_id.
  split; [reflexivity|]. split.
  - unfold strlen. rewrite !string_length_append, fmt_mac_length.
    cbn [String.length]. lia.
  - split; [apply read_fmt_mac; assumption|].
    intros E. apply string_append_cancel_l in E.
    apply (string_append_cancel_l "-") in E.
    rewrite <- (read_fmt_mac m1 H1), <- (read_fmt_mac m2 H2), E.
    reflexivity.
Qed.

Lemma client_id_identifies_the_device_witness :
  snprintf 80 (fmt_client_id "wm" [0; 80; 67; 2; 254; 1])
  = "wm-00504302fe01".
Proof.
  assert (Hm : is_mac [0; 80; 67; 2; 254; 1]).
  { split; [reflexivity|]. repeat constructor; lia. }
  destruct (client_id_identifies_the_device
              (mk_aws_iot_config "wm" "us-east-1" 8883 80 "ca")
              [0; 80; 67; 2; 254; 1] [0; 80; 67; 2; 254; 1])
    as (_ & H); [cbn; lia|].
  destruct H as (H & _);
    [unfold strlen; cbn; lia | exact Hm | exact Hm |].
  cbn [MAX_SIZE_OF_UNIQUE_CLIENT_ID_BYTES AWS_IOT_MQTT_CLIENT_ID] in H.
  rewrite H. reflexivity.
Defined.

(** X3: when the configuration is read, the host is
    [data.iot.<region>.amazonaws.com] with the stored region if it could
    be read and with the compiled-in region otherwise; the host never
    exceeds the 128 bytes of [url], and a region short enough for the text
    to fit, as every region that fits the 16-byte region buffer is, is not
    cut. *)
Theorem host_uses_stored_or_default_region
  (cfg : aws_iot_config) (p : stored_config) (sp : ShadowParameters_t)
  (w : world) :
  let r := aws_starter_load_configuration_sp cfg p sp w in
  let region :=
    if fst (stored_region p) =? WM_SUCCESS
    then snd (stored_region p)
    else AWS_IOT_MY_REGION_NAME cfg in
  fst (val r) = WM_SUCCESS ->
  exists host,
    pHost (snd (val r)) = Some host
    /\ strlen host < URL_SIZE
    /\ (strlen region + 23 < URL_SIZE ->
        host = ("data.iot." ++ region ++ ".amazonaws.com")%string)
    /\ (fst (stored_region p) = WM_SUCCESS ->
        strlen (snd (stored_region p)) < REGION_LEN ->
        host = ("data.iot." ++ snd (stored_region p)
                  ++ ".amazonaws.com")%string).
Proof.
  cbn zeta. intros Hok.
  destruct (load_configuration_result_aux cfg p sp w) as (Hcode & Hsp).
  rewrite Hcode in Hok.
  destruct (reads_ok (setup_codes p 0 0 0)) eqn:Hreads;
    [|discriminate Hok].
  rewrite (Hsp eq_refl). cbn [pHost].
  assert (Hl : forall s, strlen (fmt_url s) = strlen s + 23).
  { intros s. unfold strlen, fmt_url. rewrite !string_length_append.
    cbn [String.length]. lia. }
  eexists. split; [reflexivity|]. split.
  - pose proof (snprintf_length URL_SIZE
                  (fmt_url (if fst (stored_region p) =? WM_SUCCESS
                            then snd (stored_region p)
                            else AWS_IOT_MY_REGION_NAME cfg))) as H.
    unfold URL_SIZE in *. lia.
  - split.
    + intros Hlen. rewrite snprintf_fits; [reflexivity|].
      rewrite Hl. unfold URL_SIZE in *. lia.
    + intros E Hlen. rewrite E. change (WM_SUCCESS =? WM_SUCCESS) with true.
      cbn iota. rewrite snprintf_fits; [reflexivity|].
      rewrite Hl. unfold REGION_LEN, URL_SIZE in *. lia.
Qed.

Lemma host_uses_stored_or_default_region_witness :
  pHost (snd (val (aws_starter_load_configuration_sp
              (mk_aws_iot_config "wm" "us-east-1" 8883 80 "ca")
              (mk_stored_config (WM_SUCCESS, "thing1")
                 (WM_SUCCESS, [0; 80; 67; 2; 254; 1])
                 (WM_SUCCESS, "eu-west-1")
                 (WM_SUCCESS, "crt") (WM_SUCCESS, "key"))
              sp_unassigned initial_world)))
  = Some "data.iot.eu-west-1.amazonaws.com".
Proof.
  destruct (host_uses_stored_or_default_region
              (mk_aws_iot_config "wm" "us-east-1" 8883 80 "ca")
              (mk_stored_config (WM_SUCCESS, "thing1")
                 (WM_SUCCESS, [0; 80; 67; 2; 254; 1])
                 (WM_SUCCESS, "eu-west-1")
                 (WM_SUCCESS, "crt") (WM_SUCCESS, "key"))
              sp_unassigned initial_world eq_refl)
    as (host & Hh & _ & _ & Hfull).
  rewrite Hh. f_equal. apply Hfull; [reflexivity|].
  unfold strlen, REGION_LEN. cbn. lia.
Defined.

(** The set-up of the thread, by return code. *)
Lemma setup_unfold (e : setup_env) (w : world) :
  val (aws_starter_demo_setup e w)
  = reads_ok e && (init_code e =? WM_SUCCESS)
    && (connect_code e =? WM_SUCCESS) && (register_code e =? WM_SUCCESS)
  /\ (In (c_led_on board_led_2) (out (aws_starter_demo_setup e w))
      <-> reads_ok e && (init_code e =? WM_SUCCESS)
          && (connect_code e =? WM_SUCCESS) = true)
  /\ (In c_aws_iot_shadow_register_delta (out (aws_starter_demo_setup e w))
      <-> reads_ok e && (init_code e =? WM_SUCCESS)
          && (connect_code e =? WM_SUCCESS) = true)
  /\ (In c_aws_iot_shadow_connect (out (aws_starter_demo_setup e w))
      <-> reads_ok e && (init_code e =? WM_SUCCESS) = true)
  /\ ~ In c_aws_iot_shadow_yield (out (aws_starter_demo_setup e w)).
Proof.
  destruct e as [tc mc rc cc kc ic nc gc].
  unfold aws_starter_demo_setup, aws_starter_load_configuration, reads_ok,
    bind, extern, wmprintf, ret, led_on.
  cbn [thing_code mac_code region_code certificate_code key_code init_code
       connect_code register_code].
  cbn iota beta.
  assert (Hf : (- WM_FAIL =? WM_SUCCESS) = false) by reflexivity.
  destruct (tc =? WM_SUCCESS); cbn [negb andb]; cbn iota beta;
    rewrite ?Hf; cbn [negb andb]; cbn iota beta.
  2:{ cbn [val out app In].
      repeat split; try discriminate; intros H;
        repeat (destruct H as [H|H]; try discriminate H); try destruct H. }
  destruct (mc =? WM_SUCCESS); cbn [negb andb]; cbn iota beta;
    rewrite ?Hf; cbn [negb andb]; cbn iota beta.
  2:{ cbn [val out app In].
      repeat split; try discriminate; intros H;
        repeat (destruct H as [H|H]; try discriminate H); try destruct H. }
  destruct (cc =? WM_SUCCESS); cbn [negb andb]; cbn iota beta;
    rewrite ?Hf; cbn [negb andb]; cbn iota beta.
  2:{ cbn [val out app In].
      repeat split; try discriminate; intros H;
        repeat (destruct H as [H|H]; try discriminate H); try destruct H. }
  destruct (Z.eqb_spec kc WM_SUCCESS) as [->|_]; cbn [negb andb];
    cbn iota beta; rewrite ?Hf; cbn [negb andb]; cbn iota beta.
  2:{ cbn [val out app In].
      repeat split; try discriminate; intros H;
        repeat (destruct H as [H|H]; try discriminate H); try destruct H. }
  change (WM_SUCCESS =? WM_SUCCESS) with true. cbn [negb]. cbn iota beta.
  destruct (ic =? WM_SUCCESS); cbn [negb andb]; cbn iota beta.
  2:{ cbn [val out app In].
      repeat split; try discriminate; intros H;
        repeat (destruct H as [H|H]; try discriminate H); try destruct H. }
  destruct (nc =? WM_SUCCESS); cbn [negb andb]; cbn iota beta.
  2:{ cbn [val out app In].
      repeat split; try discriminate; intros H;
        repeat (destruct H as [H|H]; try discriminate H); try destruct H;
        auto 20. }
  destruct (gc =? WM_SUCCESS); cbn [negb andb]; cbn iota beta;
    cbn [val out app In];
    repeat split; try discriminate; intros H;
      repeat (destruct H as [H|H]; try discriminate H); try destruct H;
      auto 20.
Qed.



(** ** Order of the calls in a run *)

Lemma app_split_at (xs ys pre post : list call) (u : call) :
  (xs ++ ys)%list = (pre ++ u :: post)%list ->
  ~ In u xs ->
  exists pre', pre = (xs ++ pre')%list /\ ys = (pre' ++ u :: post)%list.
Proof.
  revert pre. induction xs as [|x xs IH]; intros pre E Hn.
  - exists pre. split; [reflexivity | exact E].
  - destruct pre as [|p pre]; cbn in E; inversion E; subst.
    + exfalso. apply Hn. left. reflexivity.
    + destruct (IH pre H1) as (pre' & -> & ->).
      { intros Hin. apply Hn. right. exact Hin. }
      exists pre'. split; reflexivity.
Qed.

Lemma published_nil_no_update (cs : list call) (doc : string) :
  published cs = [] -> ~ In (c_aws_iot_shadow_update doc) cs.
Proof.
  induction cs as [|c cs IH]; intros Hp Hin; [destruct Hin|].
  destruct c; cbn [published] in Hp; try discriminate Hp;
    (destruct Hin as [E|Hin]; [discriminate E | exact (IH Hp Hin)]).
Qed.

(** The thread's position after a step. *)
Lemma step_thread (ev : event) (w : world) :
  aws_starter_thread w <> thread_in_loop ->
  aws_starter_thread (st (step ev w)) = thread_in_loop ->
  exists e,
    ev = ev_thread_setup e /\ val (aws_starter_demo_setup e w) = true.
Proof.
  intros Hn H.
  destruct ev as [| | | |c|e|e].
  - cbn [step] in H. rewrite pushbutton_a_cb_unfold in H. cbn [st] in H.
    destruct (_ =? _); contradiction.
  - cbn [step] in H. rewrite pushbutton_b_cb_unfold in H. cbn [st] in H.
    destruct (_ =? _); contradiction.
  - contradiction.
  - contradiction.
  - cbn [step] in H. rewrite connected_unfold in H.
    destruct (device_state w =? 0);
      [destruct (c =? WM_SUCCESS)
      | destruct (device_state w =? AWS_DISCONNECTED)];
      try contradiction; cbn in H; discriminate H.
  - exists e. split; [reflexivity|].
    rewrite step_setup_st in H.
    destruct (aws_starter_thread w) eqn:Hth; try congruence.
    destruct (val (aws_starter_demo_setup e w));
      [reflexivity | cbn in H; discriminate H].
  - rewrite step_iteration_st in H.
    destruct (aws_starter_thread w) eqn:Hth; congruence.
Qed.

Lemma step_out_setup (e : setup_env) (w : world) :
  exists tail,
    out (step (ev_thread_setup e) w)
    = (match aws_starter_thread w with
       | thread_created => out (aws_starter_demo_setup e w)
       | _ => []
       end ++ tail)%list.
Proof.
  unfold step. monad_simp.
  destruct (aws_starter_thread w); monad_simp;
    try (exists []; reflexivity).
  eexists. reflexivity.
Qed.

Lemma subscribed_before_update (evs : list event) :
  forall w pre doc post,
    aws_starter_thread w <> thread_in_loop ->
    out (run evs w) = (pre ++ c_aws_iot_shadow_update doc :: post)%list ->
    In c_aws_iot_shadow_connect pre
    /\ In c_aws_iot_shadow_register_delta pre.
Proof.
  induction evs as [|ev evs IH]; intros w pre doc post Hth E.
  - destruct pre; discriminate E.
  - rewrite run_out_cons in E.
    assert (Hnu : ~ In (c_aws_iot_shadow_update doc) (out (step ev w))).
    { apply published_nil_no_update. rewrite step_published.
      destruct ev; try reflexivity.
      destruct (aws_starter_thread w); try reflexivity. contradiction. }
    destruct (app_split_at _ _ _ _ _ E Hnu) as (pre' & -> & E').
    destruct (aws_starter_thread (st (step ev w))) eqn:Hth';
      try (destruct (IH (st (step ev w)) pre' doc post) as [H1 H2];
           [rewrite Hth'; discriminate | exact E' |];
           split; apply in_or_app; right; assumption).
    destruct (step_thread ev w Hth Hth') as (e & -> & Hv).
    destruct (step_out_setup e w) as (tail & Ho).
    destruct (setup_unfold e w) as (Hval & _ & Hreg & Hcon & _).
    rewrite Hv in Hval. symmetry in Hval.
    apply andb_prop in Hval as [Hval Hg].
    apply andb_prop in Hval as [Hval Hc].
    assert (Hthc : aws_starter_thread w = thread_created).
    { rewrite step_setup_st in Hth'.
      destruct (aws_starter_thread w) eqn:Hth0; try reflexivity;
        congruence. }
    rewrite Ho, Hthc.
    split; apply in_or_app; left; apply in_or_app; left.
    + apply Hcon. exact Hval.
    + apply Hreg. rewrite Hval, Hc. reflexivity.
Qed.

(** X12: in every run from the initial state, before any document is
    handed to [aws_iot_shadow_update] the shadow has been connected
    ([aws_iot_shadow_connect]) and the delta callback registered
    ([aws_iot_shadow_register_delta]); nothing is published by a thread
    that has not finished its set-up. *)
Theorem no_update_before_subscription
  (evs : list event) (pre post : list call) (doc : string) :
  out (run evs initial_world)
  = (pre ++ c_aws_iot_shadow_update doc :: post)%list ->
  In c_aws_iot_shadow_connect pre
  /\ In c_aws_iot_shadow_register_delta pre.
Proof.
  apply subscribed_before_update. discriminate.
Qed.

Lemma no_update_before_subscription_witness :
  In c_aws_iot_shadow_register_delta
    [c_wmprintf "Connected successfully to the configured network";
     c_wmtime_time_set_posix 1459468800; c_os_thread_create;
     c_aws_iot_mqtt_init; c_read_config "thing"; c_read_config "device_mac";
     c_read_config "region"; c_read_config "certificate";
     c_read_config "key"; c_aws_iot_shadow_init; c_aws_iot_shadow_connect;
     c_led_on board_led_2; c_wmprintf "Cloud Started";
     c_aws_iot_shadow_register_delta; c_aws_iot_shadow_yield;
     c_wmprintf "Publishing '%s' to AWS"].
Proof.
  eapply (no_update_before_subscription started _ [c_os_thread_sleep 100]).
  vm_compute. reflexivity.
Defined.

(** ** Presses while the publisher runs *)

Lemma presses_a_pending (n : nat) (w : world) :
  pushbutton_a_count_prev w <> pushbutton_a_count w ->
  st (presses_a n w) = w.
Proof.
  intros H. induction n as [|n IH]; [reflexivity|].
  cbn [presses_a]. rewrite bind_st, press_ignored by assumption. exact IH.
Qed.

Lemma presses_a_reported (n : nat) (w : world) :
  is_uint32 (pushbutton_a_count w) ->
  pushbutton_a_count_prev w = pushbutton_a_count w ->
  st (presses_a n w)
  = match n with
    | O => w
    | S _ =>
        set_pushbutton_a_count (uint32_wrap (pushbutton_a_count w + 1)) w
    end.
Proof.
  intros Hr H. destruct n as [|n]; [reflexivity|].
  cbn [presses_a]. rewrite bind_st, press_counts by assumption.
  apply presses_a_pending. cbn. rewrite H.
  intros E. symmetry in E. revert E. apply uint32_wrap_succ_neq. exact Hr.
Qed.

(** X13: a press of button A that arrives while the publisher is between
    its test and its assignment changes nothing, so the count printed in
    the document is the count stored as last reported, and it is the count
    the test has seen; the first press after the assignment is counted.
    When the test finds nothing to report, presses that follow move the
    count by one, whatever their number. *)
Theorem publisher_is_not_raced (k1 k2 k3 : nat) (w : world) :
  is_uint32 (pushbutton_a_count w) ->
  let r := publish_button_a_interrupted k1 k2 k3 w in
  let c := pushbutton_a_count w in
  let next := set_pushbutton_a_count (uint32_wrap (c + 1)) in
  if pushbutton_a_count_prev w =? c
  then val r = None
       /\ st r = match (k1 + k2 + k3)%nat with O => w | S _ => next w end
  else val r = Some c
       /\ pushbutton_a_count_prev (st r) = c
       /\ st r = match k3 with
                 | O => set_pushbutton_a_count_prev c w
                 | S _ => next (set_pushbutton_a_count_prev c w)
                 end.
Proof.
  intros Hr. cbn zeta. unfold publish_button_a_interrupted.
  destruct (Z.eqb_spec (pushbutton_a_count_prev w) (pushbutton_a_count w))
    as [E|E].
  - monad_simp. rewrite E, Z.eqb_refl. cbn [negb]. monad_simp.
    split; [reflexivity|].
    destruct k1 as [|k1].
    + cbn [presses_a ret st Nat.add].
      destruct k2 as [|k2].
      * cbn [presses_a ret st Nat.add]. apply presses_a_reported; assumption.
      * rewrite (presses_a_reported (S k2)) by assumption.
        cbn [Nat.add]. apply presses_a_pending. cbn. rewrite E.
        intros E'. symmetry in E'. revert E'.
        apply uint32_wrap_succ_neq. exact Hr.
    + rewrite (presses_a_reported (S k1)) by assumption.
      assert (Hp : pushbutton_a_count_prev
                     (set_pushbutton_a_count
                        (uint32_wrap (pushbutton_a_count w + 1)) w)
                   <> pushbutton_a_count
                        (set_pushbutton_a_count
                           (uint32_wrap (pushbutton_a_count w + 1)) w)).
      { cbn. rewrite E. intros E'. symmetry in E'. revert E'.
        apply uint32_wrap_succ_neq. exact Hr. }
      rewrite (presses_a_pending k2 _ Hp), (presses_a_pending k3 _ Hp).
      reflexivity.
  - monad_simp.
    destruct (Z.eqb_spec (pushbutton_a_count_prev w) (pushbutton_a_count w));
      [contradiction|].
    cbn [negb]. monad_simp.
    repeat (rewrite (presses_a_pending _ w) by exact E; monad_simp).
    split; [reflexivity|].
    assert (Hk : st (presses_a k3
                       (set_pushbutton_a_count_prev (pushbutton_a_count w) w))
                 = match k3 with
                   | O => set_pushbutton_a_count_prev (pushbutton_a_count w) w
                   | S _ =>
                       set_pushbutton_a_count
                         (uint32_wrap (pushbutton_a_count w + 1))
                         (set_pushbutton_a_count_prev (pushbutton_a_count w)
                            w)
                   end).
    { apply (presses_a_reported k3
               (set_pushbutton_a_count_prev (pushbutton_a_count w) w));
        [exact Hr | reflexivity]. }
    rewrite Hk. split; [|reflexivity].
    destruct k3; reflexivity.
Qed.

Lemma publisher_is_not_raced_witness :
  val (publish_button_a_interrupted 2 3 1 pressed_once) = Some 1
  /\ pushbutton_a_count (st (publish_button_a_interrupted 2 3 1 pressed_once))
     = 2.
Proof.
  assert (Hr : is_uint32 (pushbutton_a_count pressed_once))
    by (unfold is_uint32; vm_compute; split; congruence).
  pose proof (publisher_is_not_raced 2 3 1 pressed_once Hr) as H.
  cbn zeta in H.
  change (pushbutton_a_count_prev pressed_once =? pushbutton_a_count pressed_once)
    with false in H.
  destruct H as (H1 & _ & H3).
  split; [exact H1|]. rewrite H3. reflexivity.
Defined.

(** ** The first document of a run *)

Lemma never_reported_pending (w : world) :
  never_reported w ->
  counters_in_range w
  /\ exists l,
       (l = 0 \/ l = 1)
       /\ spec_changed_fields w
          = [(VAR_BUTTON_A_PROPERTY, 0); (VAR_BUTTON_B_PROPERTY, 0);
             (VAR_LED_1_PROPERTY, l)].
Proof.
  intros (Ha & Hb & Hl & Hap & Hbp & Hlp).
  split.
  - unfold counters_in_range, is_uint32. rewrite Ha, Hb.
    destruct Hl as [-> | ->]; lia.
  - exists (led_1_state w). split; [exact Hl|].
    unfold spec_changed_fields. rewrite Ha, Hb, Hap, Hbp, Hlp.
    destruct Hl as [-> | ->]; reflexivity.
Qed.

Lemma deliver_never_reported (msgs : list inbound_msg) (w : world) :
  never_reported w -> never_reported (st (deliver msgs w)).
Proof.
  intros (Ha & Hb & Hl & Hap & Hbp & Hlp).
  destruct (deliver_frame msgs w) as (H1 & H2 & H3 & H4 & H5 & _).
  unfold never_reported. rewrite H1, H2, H3, H4, H5.
  repeat split; try assumption.
  pose proof (deliver_requested msgs None w) as H.
  change (requested None w) with w in H. rewrite H.
  destruct (last_request msgs None) as [v|]; [|exact Hl].
  unfold requested, led_value. cbn [led_1_state set_led_1_state].
  destruct (v =? 0); auto.
Qed.

Lemma step_never_reported (ev : event) (w : world) :
  never_reported w ->
  (published (out (step ev w)) = [] /\ never_reported (st (step ev w)))
  \/ exists l, (l = 0 \/ l = 1)
               /\ published (out (step ev w)) = [doc_of_all 0 0 l].
Proof.
  intros Hw. pose proof Hw as (Ha & Hb & Hl & Hap & Hbp & Hlp).
  rewrite step_published.
  destruct ev as [| | | |c|e|e].
  - left. split; [reflexivity|].
    cbn [step]. rewrite press_ignored; [exact Hw|].
    rewrite Ha, Hap. discriminate.
  - left. split; [reflexivity|].
    cbn [step]. rewrite pushbutton_b_cb_unfold. cbn [st].
    rewrite Hb, Hbp. exact Hw.
  - left. split; [reflexivity | exact Hw].
  - left. split; [reflexivity | exact Hw].
  - left. split; [reflexivity|].
    cbn [step]. rewrite connected_unfold.
    destruct (device_state w =? 0);
      [destruct (c =? WM_SUCCESS)
      | destruct (device_state w =? AWS_DISCONNECTED)];
      exact Hw.
  - left. split; [reflexivity|].
    rewrite step_setup_st. destruct (aws_starter_thread w); exact Hw.
  - destruct (aws_starter_thread w) eqn:Hth;
      try (left; split; [reflexivity|];
           rewrite step_iteration_st, Hth; exact Hw).
    rewrite iteration_published.
    assert (Hr : never_reported (st (aws_starter_demo_reconnect e w))).
    { destruct (reconnect_fields e w) as (H1 & H2 & H3 & H4 & H5 & H6 & _).
      unfold never_reported. rewrite H1, H2, H3, H4, H5, H6. exact Hw. }
    destruct (val (aws_starter_demo_reconnect e w)) eqn:Hv.
    + right.
      apply (deliver_never_reported (inbound e)) in Hr.
      destruct (never_reported_pending _ Hr) as (Hrange & l & Hl' & Hp).
      exists l. split; [exact Hl'|].
      rewrite publish_out, published_publish_calls, Hp by exact Hrange.
      reflexivity.
    + left. split; [reflexivity|].
      rewrite step_iteration_st, Hth.
      destruct (iteration_frame e w) as (Hvi & _).
      rewrite Hvi, Hv, iteration_st, Hv. exact Hr.
Qed.

(** X14: the first document of every run reports all three fields, with
    pb and pb_lambda at 0 and led at 0 or 1: the last-reported values
    start at a value no count has, and a press made before the first
    report finds an unreported count and changes nothing. *)
Theorem first_document_reports_everything
  (evs : list event) (doc : string) (rest : list string) :
  published (out (run evs initial_world)) = doc :: rest ->
  exists l, (l = 0 \/ l = 1) /\ doc = doc_of_all 0 0 l.
Proof.
  assert (H0 : never_reported initial_world).
  { unfold never_reported. cbn. tauto. }
  generalize initial_world H0.
  induction evs as [|ev evs IH]; intros w Hw E; [discriminate E|].
  rewrite run_out_cons, published_app in E.
  destruct (step_never_reported ev w Hw) as [[Hp Hn] | (l & Hl & Hp)].
  - rewrite Hp in E. exact (IH _ Hn E).
  - rewrite Hp in E. inversion E. exists l. split; [exact Hl | reflexivity].
Qed.

Lemma first_document_reports_everything_witness :
  exists l,
    (l = 0 \/ l = 1)
    /\ hd "" (published (out (run (ev_pushbutton_a :: started)
                                initial_world)))
       = doc_of_all 0 0 l.
Proof.
  assert (E : published (out (run (ev_pushbutton_a :: started) initial_world))
              = hd "" (published
                         (out (run (ev_pushbutton_a :: started)
                                 initial_world))) :: [])
    by (vm_compute; reflexivity).
  exact (first_document_reports_everything _ _ _ E).
Defined.
